(** * pycsep catalogs: a shallow embedding of [csep/core/catalogs.py]

    - [Py]: the fragment of Python the module relies on (exceptions,
      [str.split], computations that may raise and that update a store);
    - [Numpy]: structured dtypes, decoding, [numpy.fromfile], field and
      fancy indexing, [numpy.where], comparison with a Python float,
      [numpy.ones] and [numpy.cumsum];
    - the classes [BaseCatalog], [CSEPCatalog], [UCERF3Catalog] and
      [ComcatCatalog] over a store of objects; a method [m] of a class [C]
      is [C_m], and the methods come in the order in which they call each
      other;
    - the properties of the module, and runs on concrete data.

    The time utilities of [csep.utils.time], the builtin [float] and
    [libcomcat.search.search] are collaborators of the module and are taken
    as parameters (classes [TimeUtils], [Builtins], [Remote]). *)

From Stdlib Require Import ZArith List String Ascii Bool Lia Floats.
From Stdlib.Strings Require Import Byte.
Import ListNotations.

Set Implicit Arguments.
Set Warnings "-inexact-float".
Set Default Proof Using "Type".

(* ===================================================================== *)
(** * Python fragment *)
(* ===================================================================== *)

Module Py.

(** The builtin exceptions that the module can raise or let through. *)
Inductive exn : Type :=
| ValueError
| KeyError
| IndexError
| TypeError
| AttributeError
| NotImplementedError
| SystemError.

Definition exn_eqb (a b : exn) : bool :=
  match a, b with
  | ValueError, ValueError | KeyError, KeyError | IndexError, IndexError
  | TypeError, TypeError | AttributeError, AttributeError
  | NotImplementedError, NotImplementedError | SystemError, SystemError => true
  | _, _ => false
  end.

(** The outcome of evaluating an expression: a value or a raised exception. *)
Inductive result (A : Type) : Type :=
| Return (a : A)
| Raise (e : exn).
Arguments Return {A} a.
Arguments Raise {A} e.

(** [s.split(' ')]: an explicit one-character separator, so consecutive
    separators delimit empty tokens and the result is never empty. *)
Fixpoint split (sep : ascii) (s : string) : list string :=
  match s with
  | EmptyString => [EmptyString]
  | String c s' =>
      if Ascii.eqb c sep then EmptyString :: split sep s'
      else match split sep s' with
           | tok :: toks => String c tok :: toks
           | [] => [String c EmptyString]
           end
  end.

(** A token holds no separator. *)
Fixpoint no_sep (sep : ascii) (s : string) : bool :=
  match s with
  | EmptyString => true
  | String c s' => negb (Ascii.eqb c sep) && no_sep sep s'
  end.

(** Number of separators in a string. *)
Fixpoint count_sep (sep : ascii) (s : string) : nat :=
  match s with
  | EmptyString => O
  | String c s' =>
      if Ascii.eqb c sep then S (count_sep sep s') else count_sep sep s'
  end.

(** ** Computations that may raise and that update a state

    A raised exception keeps the updates made before it, as in Python. *)
Definition M (S A : Type) : Type := S -> result A * S.

Definition ret {S A} (a : A) : M S A := fun s => (Return a, s).

Definition raise {S A} (e : exn) : M S A := fun s => (Raise e, s).

Definition bind {S A B} (c : M S A) (k : A -> M S B) : M S B :=
  fun s =>
    match c s with
    | (Return a, s') => k a s'
    | (Raise e, s') => (Raise e, s')
    end.

(** An expression without effect on the state. *)
Definition lift {S A} (r : result A) : M S A := fun s => (r, s).

Definition modify {S} (f : S -> S) : M S unit := fun s => (Return tt, f s).

End Py.
Export Py.

Declare Scope py_scope.
Delimit Scope py_scope with py.
Notation "x <- c ;; k" := (bind c (fun x => k))
  (at level 61, c at next level, right associativity) : py_scope.
Notation "c ;; k" := (bind c (fun _ => k))
  (at level 61, right associativity) : py_scope.

(* ===================================================================== *)
(** * numpy fragment *)
(* ===================================================================== *)

Module Numpy.

Local Open Scope Z_scope.

(** ** dtypes *)

(** The type codes that occur in the module: [">i2"], [">i4"], [">i8"],
    [">f8"] (big-endian integers and doubles of the UCERF3 layout),
    ["<f4"] and ["S256"] (the ComCat rows). *)
Inductive scalar_type : Type :=
| be_i2
| be_i4
| be_i8
| be_f8
| le_f4
| bytes_S (n : nat).

(** Width in bytes of one value of a scalar type. *)
Definition width (t : scalar_type) : nat :=
  match t with
  | be_i2 => 2
  | be_i4 => 4
  | be_i8 => 8
  | be_f8 => 8
  | le_f4 => 4
  | bytes_S n => n
  end.

(** A structured dtype is the ordered list of its named fields.  A dtype
    built by [numpy.dtype([...])] is packed ([align=False]): the fields
    follow each other without padding. *)
Definition dtype : Type := list (string * scalar_type).

(** A plain dtype such as ['>i4'] has no fields: it is kept as a single
    item without a name. *)
Definition plain (t : scalar_type) : dtype := [(EmptyString, t)].

(** [dtype.itemsize]. *)
Definition itemsize (d : dtype) : nat :=
  list_sum (map (fun f => width (snd f)) d).

(** ** Values *)

(** One cell of a structured array.  An integer field holds its value; a
    double holds a binary64 float; a single holds a binary32 value (kept
    as the binary64 float equal to it); a byte-string field its bytes. *)
Inductive cell : Type :=
| CInt (z : Z)
| CFloat (x : float)
| CFloat32 (x : float)
| CBytes (b : list byte).

Definition row : Type := list cell.

(** A one-dimensional array: its dtype and its items in order. *)
Record ndarray : Type := mk_ndarray {
  arr_dtype : dtype;
  arr_rows : list row
}.

(** [len(a)]. *)
Definition len (a : ndarray) : nat := List.length (arr_rows a).

(** ** Decoding *)

Definition byte_val (b : byte) : Z := Z.of_N (Byte.to_N b).

(** The unsigned value of a big-endian byte string. *)
Definition be_unsigned (bs : list byte) : Z :=
  fold_left (fun acc b => acc * 256 + byte_val b) bs 0.

(** The unsigned value of a little-endian byte string. *)
Definition le_unsigned (bs : list byte) : Z := be_unsigned (rev bs).

(** Two's complement on [8 * w] bits. *)
Definition to_signed (w : nat) (u : Z) : Z :=
  if u <? 2 ^ (8 * Z.of_nat w - 1) then u else u - 2 ^ (8 * Z.of_nat w).

(** The float with the given IEEE 754 bit pattern, for a format with
    [mw] explicit mantissa bits and [ew] exponent bits. *)
Definition float_of_bits (mw ew : Z) (bits : Z) : float :=
  let sign := Z.testbit bits (mw + ew) in
  let e := (bits / 2 ^ mw) mod 2 ^ ew in
  let m := bits mod 2 ^ mw in
  let bias := 2 ^ (ew - 1) - 1 in
  if e =? 0 then
    match m with
    | Zpos p => SF2Prim (S754_finite sign p (1 - bias - mw))
    | _ => SF2Prim (S754_zero sign)
    end
  else if e =? 2 ^ ew - 1 then
    if m =? 0 then SF2Prim (S754_infinity sign) else SF2Prim S754_nan
  else
    match (m + 2 ^ mw)%Z with
    | Zpos p => SF2Prim (S754_finite sign p (e - bias - mw))
    | _ => SF2Prim S754_nan
    end.

Definition decode_scalar (t : scalar_type) (bs : list byte) : cell :=
  match t with
  | be_i2 | be_i4 | be_i8 => CInt (to_signed (width t) (be_unsigned bs))
  | be_f8 => CFloat (float_of_bits 52 11 (be_unsigned bs))
  | le_f4 => CFloat32 (float_of_bits 23 8 (le_unsigned bs))
  | bytes_S _ => CBytes bs
  end.

(** One item: the fields are decoded left to right, each from its own
    [width] bytes. *)
Fixpoint decode_row (d : dtype) (bs : list byte) : row :=
  match d with
  | [] => []
  | (_, t) :: d' =>
      decode_scalar t (firstn (width t) bs)
        :: decode_row d' (skipn (width t) bs)
  end.

(** The first [n] consecutive chunks of [sz] bytes. *)
Fixpoint chunks (sz n : nat) (bs : list byte) : list (list byte) :=
  match n with
  | O => []
  | S n' => firstn sz bs :: chunks sz n' (skipn sz bs)
  end.

(** ** [numpy.fromfile]

    [fromfile f dt count] is [numpy.fromfile(file, dtype=dt, count=count)]
    on an open binary file whose unread bytes are [f]; it returns the array
    and the bytes still unread afterwards.

    A negative [count] reads every whole item that is left.  Otherwise
    [count] items are requested with one [fread]; when fewer whole items are
    available the array is cut down to the items that were read, no error
    is raised, and the stream is left at the end of the file. *)
Definition fromfile (f : list byte) (dt : dtype) (count : Z)
  : ndarray * list byte :=
  let sz := itemsize dt in
  let avail := (List.length f / sz)%nat in
  if count <? 0 then
    (mk_ndarray dt (map (decode_row dt) (chunks sz avail f)),
     skipn (avail * sz) f)
  else if (Z.to_nat count <=? avail)%nat then
    (mk_ndarray dt (map (decode_row dt) (chunks sz (Z.to_nat count) f)),
     skipn (Z.to_nat count * sz) f)
  else
    (mk_ndarray dt (map (decode_row dt) (chunks sz avail f)), []).

(** ** Indexing *)

(** Whether a dtype has fields ([dtype.names is not None]).  numpy never
    gives a field the empty name (an unnamed field is called [f0], [f1],
    ...), so the single anonymous item of [plain] is not a field: only such
    a dtype has none. *)
Definition has_fields (d : dtype) : bool :=
  match d with
  | [(EmptyString, _)] => false
  | _ => true
  end.

(** Type and position of the first item of a dtype that carries a name. *)
Fixpoint field_position (d : dtype) (name : string)
  : option (scalar_type * nat) :=
  match d with
  | [] => None
  | (n, t) :: d' =>
      if String.eqb n name then Some (t, O)
      else option_map (fun ti => (fst ti, S (snd ti))) (field_position d' name)
  end.

(** Type and position of a field in a dtype ([dtype.fields]); a dtype
    without fields has no field of any name. *)
Definition field_lookup (d : dtype) (name : string)
  : option (scalar_type * nat) :=
  if has_fields d then field_position d name else None.

(** The error of a string index that finds no field: on a structured
    array a [ValueError] ("no field of name ..."), on an array without
    fields an [IndexError] (a string is no valid index). *)
Definition no_field (d : dtype) : exn :=
  if has_fields d then ValueError else IndexError.

(** [a[name]]: the column of a field, with its scalar type. *)
Definition getitem_field (a : ndarray) (name : string)
  : result (scalar_type * list cell) :=
  match field_lookup (arr_dtype a) name with
  | Some (t, i) => Return (t, map (fun r => nth i r (CInt 0)) (arr_rows a))
  | None => Raise (no_field (arr_dtype a))
  end.

(** [xs[i]] for a non-negative index. *)
Definition getitem_index {A} (xs : list A) (i : nat) : result A :=
  match nth_error xs i with
  | Some x => Return x
  | None => Raise IndexError
  end.

(** A scalar used as a count or size (a numpy integer). *)
Definition as_int (c : cell) : result Z :=
  match c with
  | CInt z => Return z
  | _ => Raise TypeError
  end.

(** ** Comparison with a Python float *)

(** The keys of the [operators] table of [filter] name these five
    functions of the [operator] module. *)
Inductive cmp_op : Type := op_gt | op_lt | op_ge | op_le | op_eq.

(** IEEE 754 comparison of two binary64 values ([nan] compares false). *)
Definition float_cmp (op : cmp_op) (x y : float) : bool :=
  match op with
  | op_gt => PrimFloat.ltb y x
  | op_lt => PrimFloat.ltb x y
  | op_ge => PrimFloat.leb y x
  | op_le => PrimFloat.leb x y
  | op_eq => PrimFloat.eqb x y
  end.

(** Conversion of an integer to binary64, rounding to nearest even. *)
Definition float_of_int (z : Z) : float :=
  SF2Prim (binary_normalize prec emax z 0 false).

(** Rounding of a binary64 value to binary32 (24 bits of precision,
    overflow to an infinity). *)
Definition to_float32 (x : float) : float :=
  match Prim2SF x with
  | S754_finite s m e =>
      SF2Prim (binary_normalize 24 128 (if s then Zneg m else Zpos m) e s)
  | _ => x
  end.

(** One element of [op(column, v)] for a numeric column and a Python
    float [v].  An integer or double column is compared in binary64; a
    single-precision column is compared in binary32, the Python float
    being the weak operand. *)
Definition compare_cell (op : cmp_op) (c : cell) (v : float) : bool :=
  match c with
  | CInt z => float_cmp op (float_of_int z) v
  | CFloat x => float_cmp op x v
  | CFloat32 x => float_cmp op x (to_float32 v)
  | CBytes _ => false
  end.

(** Whether a scalar type is a number. *)
Definition numeric (t : scalar_type) : bool :=
  match t with
  | bytes_S _ => false
  | _ => true
  end.

(** [op(column, v)]: the boolean mask.  The loop is chosen from the dtype
    of the column, before any element is looked at: a byte-string column
    has no ordering with a float (no matching loop, a [TypeError]) and is
    equal to none. *)
Definition compare (op : cmp_op) (col : scalar_type * list cell) (v : float)
  : result (list bool) :=
  if numeric (fst col) then
    Return (map (fun c => compare_cell op c v) (snd col))
  else
    match op with
    | op_eq => Return (map (fun _ => false) (snd col))
    | _ => Raise TypeError
    end.

(** The test that [op(a[name], v)] makes on a row of [a] when the field
    [name] is at position [i]. *)
Definition selects (op : cmp_op) (i : nat) (v : float) (r : row) : bool :=
  compare_cell op (nth i r (CInt 0)) v.

(** ** [numpy.where] and fancy indexing *)

Fixpoint where_from (i : nat) (mask : list bool) : list nat :=
  match mask with
  | [] => []
  | b :: mask' =>
      if b then i :: where_from (S i) mask' else where_from (S i) mask'
  end.

(** [numpy.where(mask)[0]]: the positions of the true elements, ascending. *)
Definition where_ (mask : list bool) : list nat := where_from O mask.

(** [[xs[i] for i in idx]], failing on the first index out of range. *)
Fixpoint gather {A} (xs : list A) (idx : list nat) : result (list A) :=
  match idx with
  | [] => Return []
  | i :: idx' =>
      match getitem_index xs i with
      | Raise e => Raise e
      | Return x =>
          match gather xs idx' with
          | Raise e => Raise e
          | Return ys => Return (x :: ys)
          end
      end
  end.

(** [a[idx]] for the tuple [idx] returned by [numpy.where]: a new array
    of the same dtype holding the selected items. *)
Definition take (a : ndarray) (idx : list nat) : result ndarray :=
  match gather (arr_rows a) idx with
  | Raise e => Raise e
  | Return rs => Return (mk_ndarray (arr_dtype a) rs)
  end.

(** ** [numpy.ones] and [numpy.cumsum]

    [numpy.ones(n)] holds [n] times the double 1.0 and the running sums of
    such an array are whole numbers; every whole number below 2^53 is a
    binary64 value and is added exactly, so these arrays are represented
    by the integers their cells hold. *)
Definition ones (n : nat) : list Z := repeat 1 n.

Fixpoint cumsum_from (acc : Z) (xs : list Z) : list Z :=
  match xs with
  | [] => []
  | x :: xs' => (acc + x) :: cumsum_from (acc + x) xs'
  end.

Definition cumsum (xs : list Z) : list Z := cumsum_from 0 xs.

End Numpy.
Export Numpy.

(* ===================================================================== *)
(** * Collaborators *)
(* ===================================================================== *)

(** [csep.utils.time] and the [datetime] values it works on.  The module
    is imported by [catalogs.py] and is not part of it: its three
    functions, and the arithmetic of datetimes, are parameters. *)
Class TimeUtils : Type := {
  datetime : Type;
  timedelta : Type;
  (** [a > b] on two datetimes *)
  datetime_gt : datetime -> datetime -> bool;
  (** [a + d] *)
  datetime_add : datetime -> timedelta -> datetime;
  epoch_time_to_utc_datetime : Z -> datetime;
  timedelta_from_years : float -> timedelta;
  datetime_to_utc_epoch : datetime -> float
}.

(** The builtin [float] applied to a string; [None] is its [ValueError]. *)
Class Builtins : Type := {
  py_float : string -> option float
}.

Section Events.
Context {TU : TimeUtils}.

(** An event of a [libcomcat] search result, with the attributes that the
    module reads. *)
Record ComcatEvent : Type := mk_event {
  ev_id : string;
  ev_time : datetime;
  ev_latitude : float;
  ev_longitude : float;
  ev_depth : float;
  ev_magnitude : float
}.

(** The keyword arguments of one call of [libcomcat.search.search]. *)
Record query : Type := mk_query {
  minmagnitude : float;
  minlatitude : float;
  maxlatitude : float;
  minlongitude : float;
  maxlongitude : float;
  starttime : datetime;
  endtime : datetime
}.

End Events.

(** [libcomcat.search.search]: the event list, or the error of the
    service. *)
Class Remote {TU : TimeUtils} : Type := {
  search : query -> result (list ComcatEvent)
}.

(* ===================================================================== *)
(** * Objects *)
(* ===================================================================== *)

Section Catalogs.
Context {TU : TimeUtils} {BI : Builtins} {RM : Remote}.

Local Open Scope py_scope.

(** The four classes of the module. *)
Inductive class : Type :=
| BaseCatalog
| CSEPCatalog
| UCERF3Catalog
| ComcatCatalog.

(** A value bound to the [_catalog] attribute: [None], a numpy array of
    numbers and byte strings (with or without fields), a numpy array of
    dtype [object] whose items are events, or the list of events that a
    ComCat search returns.  The items of an array of the first kind are
    numpy scalars, which have no attribute [id]; the items of an object
    array are the event objects themselves.  Arrays of further kinds (a
    [numpy.recarray], whose items give their fields as attributes) are not
    represented. *)
Inductive pyval : Type :=
| PNone
| PArray (a : ndarray)
| PObjectArray (l : list ComcatEvent)
| PEventList (l : list ComcatEvent).

Definition is_none (v : pyval) : bool :=
  match v with PNone => true | _ => false end.

(** [isinstance(v, numpy.ndarray)]. *)
Definition is_ndarray (v : pyval) : bool :=
  match v with PArray _ | PObjectArray _ => true | _ => false end.

(** A catalog identifier: [None], an integer or a string. *)
Inductive pyid : Type :=
| IdNone
| IdInt (n : Z)
| IdStr (s : string).

(** The attributes of a catalog object.  An attribute that has not been
    assigned yet reads as [None]. *)
Record instance : Type := mk_instance {
  cls : class;
  filename : option string;
  catalog_id : pyid;
  format : option string;
  name : option string;
  _catalog : pyval;
  min_magnitude : option float;
  min_latitude : option float;
  max_latitude : option float;
  min_longitude : option float;
  max_longitude : option float;
  start_time : option datetime;
  end_time : option datetime
}.

Definition blank (c : class) : instance :=
  mk_instance c None IdNone None None PNone None None None None None None None.

Definition set__catalog (v : pyval) (o : instance) : instance :=
  mk_instance (cls o) (filename o) (catalog_id o) (format o) (name o) v
    (min_magnitude o) (min_latitude o) (max_latitude o) (min_longitude o)
    (max_longitude o) (start_time o) (end_time o).

Definition set_filename (v : option string) (o : instance) : instance :=
  mk_instance (cls o) v (catalog_id o) (format o) (name o) (_catalog o)
    (min_magnitude o) (min_latitude o) (max_latitude o) (min_longitude o)
    (max_longitude o) (start_time o) (end_time o).

Definition set_catalog_id (v : pyid) (o : instance) : instance :=
  mk_instance (cls o) (filename o) v (format o) (name o) (_catalog o)
    (min_magnitude o) (min_latitude o) (max_latitude o) (min_longitude o)
    (max_longitude o) (start_time o) (end_time o).

Definition set_format (v : option string) (o : instance) : instance :=
  mk_instance (cls o) (filename o) (catalog_id o) v (name o) (_catalog o)
    (min_magnitude o) (min_latitude o) (max_latitude o) (min_longitude o)
    (max_longitude o) (start_time o) (end_time o).

Definition set_name (v : option string) (o : instance) : instance :=
  mk_instance (cls o) (filename o) (catalog_id o) (format o) v (_catalog o)
    (min_magnitude o) (min_latitude o) (max_latitude o) (min_longitude o)
    (max_longitude o) (start_time o) (end_time o).

Definition set_region (mag lat0 lat1 lon0 lon1 : float) (o : instance)
  : instance :=
  mk_instance (cls o) (filename o) (catalog_id o) (format o) (name o)
    (_catalog o) (Some mag) (Some lat0) (Some lat1) (Some lon0) (Some lon1)
    (start_time o) (end_time o).

Definition set_start_time (v : datetime) (o : instance) : instance :=
  mk_instance (cls o) (filename o) (catalog_id o) (format o) (name o)
    (_catalog o) (min_magnitude o) (min_latitude o) (max_latitude o)
    (min_longitude o) (max_longitude o) (Some v) (end_time o).

Definition set_end_time (v : datetime) (o : instance) : instance :=
  mk_instance (cls o) (filename o) (catalog_id o) (format o) (name o)
    (_catalog o) (min_magnitude o) (min_latitude o) (max_latitude o)
    (min_longitude o) (max_longitude o) (start_time o) (Some v).

(** ** The store *)

(** A reference to an object: its position in the store. *)
Definition ref : Type := nat.

(** What the outside can observe of a run: each execution of a
    [load_catalog] method and each query sent to the remote service. *)
Inductive event : Type :=
| call_load_catalog (self : ref)
| call_search (q : query).

Record world : Type := mk_world {
  heap : list instance;
  trace : list event
}.

Definition lookup (w : world) (r : ref) : option instance :=
  nth_error (heap w) r.

Fixpoint update_nth {A} (n : nat) (f : A -> A) (l : list A) : list A :=
  match l, n with
  | [], _ => []
  | x :: l', O => f x :: l'
  | x :: l', S n' => x :: update_nth n' f l'
  end.

(** Reading the attributes of [self].  A reference is always to a live
    object in Python; the failure branch is never taken from a reference
    returned by [new]. *)
Definition read (self : ref) : M world instance :=
  fun w =>
    match lookup w self with
    | Some o => (Return o, w)
    | None => (Raise SystemError, w)
    end.

(** The world after the attributes of [self] have been changed by [f]. *)
Definition stored (self : ref) (f : instance -> instance) (w : world) : world :=
  mk_world (update_nth self f (heap w)) (trace w).

(** Assigning attributes of [self] in place. *)
Definition write (self : ref) (f : instance -> instance) : M world unit :=
  modify (stored self f).

(** Creating an object of a class, before its [__init__] runs. *)
Definition new (c : class) : M world ref :=
  fun w => (Return (List.length (heap w)),
            mk_world (heap w ++ [blank c]) (trace w)).

Definition emit (e : event) : M world unit :=
  modify (fun w => mk_world (heap w) (trace w ++ [e])).

(** Number of executions of [load_catalog] recorded in a trace. *)
Definition loads (t : list event) : nat :=
  List.length
    (filter (fun e => match e with call_load_catalog _ => true | _ => false end)
       t).

(** Number of remote queries recorded in a trace. *)
Definition searches (t : list event) : nat :=
  List.length
    (filter (fun e => match e with call_search _ => true | _ => false end) t).

(* ===================================================================== *)
(** * The classes of [catalogs.py] *)
(* ===================================================================== *)

(** Constructor arguments of [BaseCatalog.__init__], with their defaults. *)
Record base_kwargs : Type := mk_base_kwargs {
  kw_filename : option string;
  kw_catalog : pyval;
  kw_catalog_id : pyid;
  kw_format : option string;
  kw_name : option string;
  kw_lazy_load : bool
}.

Definition default_kwargs : base_kwargs :=
  mk_base_kwargs None PNone IdNone None None true.

(** ** [ComcatCatalog._get_catalog_as_ndarray] *)

Definition comcat_dtype : dtype :=
  [("id"%string, bytes_S 256); ("epoch_time"%string, le_f4);
   ("latitude"%string, le_f4); ("longitude"%string, le_f4);
   ("depth"%string, le_f4); ("magnitude"%string, le_f4)].

(** The tuple stored at [catalog[i]], cast to the dtype of the array. *)
Definition row_of_event (e : ComcatEvent) : row :=
  [CBytes (firstn 256 (list_byte_of_string (ev_id e)));
   CFloat32 (to_float32 (datetime_to_utc_epoch (ev_time e)));
   CFloat32 (to_float32 (ev_latitude e));
   CFloat32 (to_float32 (ev_longitude e));
   CFloat32 (to_float32 (ev_depth e));
   CFloat32 (to_float32 (ev_magnitude e))].

(** [len(v)]. *)
Definition py_len (v : pyval) : result nat :=
  match v with
  | PNone => Raise TypeError
  | PArray a => Return (len a)
  | PObjectArray l | PEventList l => Return (List.length l)
  end.

(** The property getter: [self.catalog] reads [self._catalog] and does
    nothing else. *)
Definition catalog_getter (self : ref) : M world pyval :=
  o <- read self ;; ret (_catalog o).

(** The loop reads the attributes [id], [time], ... of each element: the
    rows of an array of numbers and byte strings have none. *)
Definition ComcatCatalog_get_catalog_as_ndarray (self : ref)
  : M world ndarray :=
  c <- catalog_getter self ;;
  _ <- lift (py_len c) ;;
  match c with
  | PEventList l | PObjectArray l =>
      ret (mk_ndarray comcat_dtype (map row_of_event l))
  | PArray a =>
      match arr_rows a with
      | [] => ret (mk_ndarray comcat_dtype [])
      | _ :: _ => raise AttributeError
      end
  | PNone => raise TypeError
  end.

(** [self._get_catalog_as_ndarray()]: only [ComcatCatalog] defines the
    method; on the other classes the attribute lookup fails. *)
Definition get_catalog_as_ndarray (self : ref) : M world ndarray :=
  o <- read self ;;
  match cls o with
  | ComcatCatalog => ComcatCatalog_get_catalog_as_ndarray self
  | _ => raise AttributeError
  end.

(** ** [BaseCatalog.catalog], the setter *)

Definition catalog_setter (self : ref) (val : pyval) : M world unit :=
  write self (set__catalog val) ;;
  o <- read self ;;
  if negb (is_none (_catalog o)) then
    if negb (is_ndarray (_catalog o)) then
      a <- get_catalog_as_ndarray self ;;
      write self (set__catalog (PArray a))
    else ret tt
  else ret tt.

(** ** [load_catalog] *)

Definition BaseCatalog_load_catalog (self : ref) : M world ref :=
  emit (call_load_catalog self) ;;
  raise NotImplementedError.

(** Reading an attribute that [__init__] has not assigned. *)
Definition attr {A} (v : option A) : M world A :=
  match v with
  | Some a => ret a
  | None => raise AttributeError
  end.

Definition ComcatCatalog_load_catalog (self : ref) : M world ref :=
  emit (call_load_catalog self) ;;
  o <- read self ;;
  mag <- attr (min_magnitude o) ;;
  lat0 <- attr (min_latitude o) ;;
  lat1 <- attr (max_latitude o) ;;
  lon0 <- attr (min_longitude o) ;;
  lon1 <- attr (max_longitude o) ;;
  t0 <- attr (start_time o) ;;
  t1 <- attr (end_time o) ;;
  let q := mk_query mag lat0 lat1 lon0 lon1 t0 t1 in
  emit (call_search q) ;;
  eventlist <- lift (search q) ;;
  catalog_setter self (PEventList eventlist) ;;
  ret self.

(** [self.load_catalog()]: [ComcatCatalog] overrides the method, the
    other classes inherit the one of [BaseCatalog]. *)
Definition load_catalog (self : ref) : M world ref :=
  o <- read self ;;
  match cls o with
  | ComcatCatalog => ComcatCatalog_load_catalog self
  | _ => BaseCatalog_load_catalog self
  end.

(** ** [BaseCatalog.__init__] *)

Definition BaseCatalog_init (self : ref) (kw : base_kwargs) : M world unit :=
  write self (set_filename (kw_filename kw)) ;;
  write self (set_catalog_id (kw_catalog_id kw)) ;;
  write self (set_format (kw_format kw)) ;;
  write self (set_name (kw_name kw)) ;;
  catalog_setter self (kw_catalog kw) ;;
  c <- catalog_getter self ;;
  if negb (kw_lazy_load kw) && is_none c then
    load_catalog self ;; ret tt
  else ret tt.

(** The attributes that [BaseCatalog.__init__] assigns when no record
    sequence is given. *)
Definition base_attributes (kw : base_kwargs) (o : instance) : instance :=
  set__catalog PNone
    (set_name (kw_name kw)
       (set_format (kw_format kw)
          (set_catalog_id (kw_catalog_id kw)
             (set_filename (kw_filename kw) o)))).

(** ** [get_number_of_events], [get_cumulative_number_of_events] *)

Definition get_number_of_events (self : ref) : M world nat :=
  c <- catalog_getter self ;;
  if negb (is_none c) then lift (py_len c) else ret O.

Definition get_cumulative_number_of_events (self : ref) : M world (list Z) :=
  num_events <- get_number_of_events self ;;
  ret (cumsum (ones num_events)).

(** ** [filter] *)

(** The [operators] dictionary of [filter]. *)
Definition operators : list (string * cmp_op) :=
  [(">"%string, op_gt);
   ("<"%string, op_lt);
   (">="%string, op_ge);
   ("<="%string, op_le);
   ("=="%string, op_eq)].

(** [d[k]] on a dictionary with string keys; a missing key is a
    [KeyError]. *)
Fixpoint dict_get {V} (d : list (string * V)) (k : string) : result V :=
  match d with
  | [] => Raise KeyError
  | (k', v) :: d' => if String.eqb k' k then Return v else dict_get d' k
  end.

(** [v[name]] for a string [name]: an object array has no fields, [None]
    cannot be subscripted and a list takes no string index. *)
Definition getitem_name (v : pyval) (name : string)
  : result (scalar_type * list cell) :=
  match v with
  | PArray a => getitem_field a name
  | PObjectArray _ => Raise IndexError
  | PNone | PEventList _ => Raise TypeError
  end.

(** [v[idx]] for the tuple of index arrays [idx]: an array of the kind of
    [v] holding the selected items. *)
Definition getitem_where (v : pyval) (idx : list nat) : result pyval :=
  match v with
  | PArray a =>
      match take a idx with
      | Raise e => Raise e
      | Return a' => Return (PArray a')
      end
  | PObjectArray l =>
      match gather l idx with
      | Raise e => Raise e
      | Return l' => Return (PObjectArray l')
      end
  | PNone | PEventList _ => Raise TypeError
  end.

(** [float(value)]. *)
Definition float_ (value : string) : result float :=
  match py_float value with
  | Some v => Return v
  | None => Raise ValueError
  end.

Definition filter (self : ref) (statement : string) : M world ref :=
  match split " " statement with
  | [name; type; value] =>
      op <- lift (dict_get operators type) ;;
      c <- catalog_getter self ;;
      col <- lift (getitem_name c name) ;;
      v <- lift (float_ value) ;;
      mask <- lift (compare op col v) ;;
      let idx := where_ mask in
      c' <- catalog_getter self ;;
      filtered <- lift (getitem_where c' idx) ;;
      catalog_setter self filtered ;;
      ret self
  | _ => raise ValueError
  end.

(** [n] successive reads of [self.catalog]. *)
Fixpoint access (n : nat) (self : ref) : M world (list pyval) :=
  match n with
  | O => ret []
  | S n' =>
      v <- catalog_getter self ;;
      vs <- access n' self ;;
      ret (v :: vs)
  end.

(** ** [CSEPCatalog.__init__]

    The constructor assigns three attributes and does not call the one of
    the base class: [format] and [lazy_load] are accepted and unused. *)
Definition CSEPCatalog_init (self : ref) (kw : base_kwargs) : M world unit :=
  write self (set_filename (kw_filename kw)) ;;
  write self (set_catalog_id (kw_catalog_id kw)) ;;
  catalog_setter self (kw_catalog kw).

(** ** [UCERF3Catalog] *)

Definition header_dtype : dtype :=
  [("file_version"%string, be_i2); ("catalog_size"%string, be_i4)].

Definition event_dtype : dtype :=
  [("rupture_id"%string, be_i4);
   ("parent_id"%string, be_i4);
   ("generation"%string, be_i2);
   ("origin_time"%string, be_i8);
   ("latitude"%string, be_f8);
   ("longitude"%string, be_f8);
   ("depth"%string, be_f8);
   ("magnitude"%string, be_f8);
   ("dist_to_parent"%string, be_f8);
   ("erf_index"%string, be_i4);
   ("fss_index"%string, be_i4);
   ("grid_node_index"%string, be_i4)].

Definition UCERF3Catalog_init (self : ref) (kw : base_kwargs) : M world unit :=
  BaseCatalog_init self kw.

(** ** [ComcatCatalog.__init__] *)

Record comcat_args : Type := mk_comcat_args {
  a_min_magnitude : float;
  a_min_latitude : float;
  a_max_latitude : float;
  a_min_longitude : float;
  a_max_longitude : float;
  a_start_time : option datetime;
  a_end_time : option datetime;
  a_start_epoch : option Z;
  a_duration_in_years : option float;
  a_catalog_id : pyid;
  a_kwargs : base_kwargs
}.

(** The defaults of the signature, for a given time window. *)
Definition comcat_defaults (start_time end_time : option datetime)
    (start_epoch : option Z) (duration_in_years : option float)
  : comcat_args :=
  mk_comcat_args 2.55 31.50 43.00 (-125.40) (-113.10)
    start_time end_time start_epoch duration_in_years
    (IdStr "Comcat") default_kwargs.

(** [start_time or epoch_time_to_utc_datetime(start_epoch)]: a datetime
    is true, so the right operand is evaluated only for [None]; by then
    [start_epoch] is known not to be [None]. *)
Definition resolve_start (a : comcat_args) : result datetime :=
  match a_start_time a with
  | Some t => Return t
  | None =>
      match a_start_epoch a with
      | Some e => Return (epoch_time_to_utc_datetime e)
      | None => Raise TypeError
      end
  end.

(** [end_time or self.start_time + timedelta_from_years(duration_in_years)]. *)
Definition resolve_end (a : comcat_args) (start : datetime) : result datetime :=
  match a_end_time a with
  | Some t => Return t
  | None =>
      match a_duration_in_years a with
      | Some y => Return (datetime_add start (timedelta_from_years y))
      | None => Raise TypeError
      end
  end.

Definition ComcatCatalog_init (self : ref) (a : comcat_args) : M world unit :=
  write self (set_region (a_min_magnitude a) (a_min_latitude a)
                (a_max_latitude a) (a_min_longitude a) (a_max_longitude a)) ;;
  write self (set_catalog_id (a_catalog_id a)) ;;
  match a_start_time a, a_start_epoch a with
  | None, None => raise ValueError
  | _, _ =>
      match a_end_time a, a_duration_in_years a with
      | None, None => raise ValueError
      | _, _ =>
          st <- lift (resolve_start a) ;;
          write self (set_start_time st) ;;
          et <- lift (resolve_end a st) ;;
          write self (set_end_time et) ;;
          if datetime_gt st et then raise ValueError
          else BaseCatalog_init self (a_kwargs a)
      end
  end.

(** ** Calling a class *)

Definition BaseCatalog_new (kw : base_kwargs) : M world ref :=
  self <- new BaseCatalog ;; BaseCatalog_init self kw ;; ret self.

Definition CSEPCatalog_new (kw : base_kwargs) : M world ref :=
  self <- new CSEPCatalog ;; CSEPCatalog_init self kw ;; ret self.

Definition UCERF3Catalog_new (kw : base_kwargs) : M world ref :=
  self <- new UCERF3Catalog ;; UCERF3Catalog_init self kw ;; ret self.

Definition ComcatCatalog_new (a : comcat_args) : M world ref :=
  self <- new ComcatCatalog ;; ComcatCatalog_init self a ;; ret self.

(** ** [UCERF3Catalog.load_catalogs]

    The method is a generator.  A generator object is either not started,
    suspended at its [yield] with the file open, or finished.  The file
    named [filename] holds the bytes [content]; [catalog_file] is what is
    still unread.  The call of [cls] passes [filename], [catalog] and
    [catalog_id] itself and takes [format], [name] and [lazy_load] from
    the extra keyword arguments [kw]. *)
Inductive generator : Type :=
| gen_created (filename : string) (content : list byte) (kw : base_kwargs)
| gen_suspended (filename : string) (kw : base_kwargs)
    (catalog_file : list byte) (catalog_id : Z)
    (number_simulations_in_set : Z)
| gen_finished.

(** What [next(g)] does: return the yielded value, or raise
    [StopIteration], or raise the exception that escaped the body. *)
Inductive outcome : Type :=
| Yielded (u3_catalog : ref)
| StopIteration
| Raised (e : exn).

(** [a[0]] for an array of plain dtype. *)
Definition first_scalar (a : ndarray) : result Z :=
  match getitem_index (arr_rows a) 0 with
  | Raise e => Raise e
  | Return r =>
      match r with
      | c :: _ => as_int c
      | [] => Raise IndexError
      end
  end.

(** [header['catalog_size'][0]]. *)
Definition header_catalog_size (header : ndarray) : result Z :=
  match getitem_field header "catalog_size" with
  | Raise e => Raise e
  | Return col =>
      match getitem_index (snd col) 0 with
      | Raise e => Raise e
      | Return c => as_int c
      end
  end.

(** The loop [for catalog_id in range(number_simulations_in_set)], from
    the test of the loop to the next [yield]. *)
Definition loop (filename : string) (kw : base_kwargs)
    (catalog_file : list byte) (catalog_id n : Z) (w : world)
  : outcome * generator * world :=
  if (catalog_id <? n)%Z then
    let (header, file1) := fromfile catalog_file header_dtype 1 in
    match header_catalog_size header with
    | Raise e => (Raised e, gen_finished, w)
    | Return catalog_size =>
        let (catalog, file2) := fromfile file1 event_dtype catalog_size in
        match UCERF3Catalog_new
                (mk_base_kwargs (Some filename) (PArray catalog)
                   (IdInt catalog_id) (kw_format kw) (kw_name kw)
                   (kw_lazy_load kw)) w with
        | (Return u3_catalog, w') =>
            (Yielded u3_catalog,
             gen_suspended filename kw file2 (catalog_id + 1) n, w')
        | (Raise e, w') => (Raised e, gen_finished, w')
        end
    end
  else (StopIteration, gen_finished, w).

Definition next (g : generator) (w : world) : outcome * generator * world :=
  match g with
  | gen_created filename content kw =>
      let (counts, file0) := fromfile content (plain be_i4) 1 in
      match first_scalar counts with
      | Raise e => (Raised e, gen_finished, w)
      | Return number_simulations_in_set =>
          loop filename kw file0 0 number_simulations_in_set w
      end
  | gen_suspended filename kw catalog_file catalog_id n =>
      loop filename kw catalog_file catalog_id n w
  | gen_finished => (StopIteration, gen_finished, w)
  end.

(** How a consumer that calls [next] at most [fuel] times ends. *)
Inductive ending : Type :=
| Exhausted
| Failed (e : exn)
| Unfinished.

(** The catalogs obtained by at most [fuel] calls of [next], in order. *)
Fixpoint drain (fuel : nat) (g : generator) (w : world)
  : list ref * ending * generator * world :=
  match fuel with
  | O => ([], Unfinished, g, w)
  | S fuel' =>
      match next g w with
      | (Yielded c, g', w') =>
          match drain fuel' g' w' with
          | (cs, e, g'', w'') => (c :: cs, e, g'', w'')
          end
      | (StopIteration, g', w') => ([], Exhausted, g', w')
      | (Raised e, g', w') => ([], Failed e, g', w')
      end
  end.

(** ** [get_magnitudes] *)

(** [event[name]] on one item of an array of dtype [d]. *)
Definition row_getitem (d : dtype) (r : row) (name : string) : result cell :=
  match field_lookup d name with
  | Some (_, i) => Return (nth i r (CInt 0))
  | None => Raise (no_field d)
  end.

(** The loop [for event in rows: out.append(event[name])]; it stops at the
    first row that raises. *)
Fixpoint rows_getitem (d : dtype) (rows : list row) (name : string)
  : result (list cell) :=
  match rows with
  | [] => Return []
  | r :: rows' =>
      match row_getitem d r name with
      | Raise e => Raise e
      | Return c =>
          match rows_getitem d rows' name with
          | Raise e => Raise e
          | Return cs => Return (c :: cs)
          end
      end
  end.

Definition BaseCatalog_get_magnitudes (self : ref) : M world (list cell) :=
  raise NotImplementedError.

(** [CSEPCatalog.get_magnitudes] and [UCERF3Catalog.get_magnitudes]: the
    column [self.catalog['magnitude']]. *)
Definition column_get_magnitudes (self : ref) : M world (list cell) :=
  c <- catalog_getter self ;;
  col <- lift (getitem_name c "magnitude") ;;
  ret (snd col).

(** [ComcatCatalog.get_magnitudes]: a loop over the rows.  [None] cannot
    be iterated, and an event object cannot be subscripted. *)
Definition ComcatCatalog_get_magnitudes (self : ref) : M world (list cell) :=
  c <- catalog_getter self ;;
  match c with
  | PNone => raise TypeError
  | PArray a => lift (rows_getitem (arr_dtype a) (arr_rows a) "magnitude")
  | PObjectArray [] | PEventList [] => ret []
  | PObjectArray (_ :: _) | PEventList (_ :: _) => raise TypeError
  end.

(** [self.get_magnitudes()]. *)
Definition get_magnitudes (self : ref) : M world (list cell) :=
  o <- read self ;;
  match cls o with
  | BaseCatalog => BaseCatalog_get_magnitudes self
  | CSEPCatalog | UCERF3Catalog => column_get_magnitudes self
  | ComcatCatalog => ComcatCatalog_get_magnitudes self
  end.

(** ** [UCERF3Catalog.get_datetimes]

    [origin_time] is an integer field and the collaborator is taken on
    integers: a cell of another kind is outside its domain, which is
    rendered as a [TypeError].  The loop reads [event['origin_time']] and
    converts it, row after row: a row that raises stops the loop before
    any later row is read. *)
Fixpoint rows_to_datetimes (d : dtype) (rows : list row)
  : result (list datetime) :=
  match rows with
  | [] => Return []
  | r :: rows' =>
      match row_getitem d r "origin_time" with
      | Raise e => Raise e
      | Return c =>
          match as_int c with
          | Raise e => Raise e
          | Return z =>
              match rows_to_datetimes d rows' with
              | Raise e => Raise e
              | Return ds => Return (epoch_time_to_utc_datetime z :: ds)
              end
          end
      end
  end.

Definition UCERF3Catalog_get_datetimes (self : ref) : M world (list datetime) :=
  c <- catalog_getter self ;;
  match c with
  | PNone => raise TypeError
  | PArray a => lift (rows_to_datetimes (arr_dtype a) (arr_rows a))
  | PObjectArray [] | PEventList [] => ret []
  | PObjectArray (_ :: _) | PEventList (_ :: _) => raise TypeError
  end.

(** ** [ComcatCatalog.get_dataframe]

    A table is the list of its columns, each a label and its values. *)
Inductive table_value : Type :=
| TStr (s : string)
| TDatetime (d : datetime)
| TFloat (x : float)
| TId (i : pyid).

Definition table : Type := list (string * list table_value).

(** [pandas.DataFrame(events)] for the list of dictionaries that the loop
    builds: no column for the empty list, else the seven keys in the order
    of the dictionary literal. *)
Definition table_of_events (id : pyid) (l : list ComcatEvent) : table :=
  match l with
  | [] => []
  | _ :: _ =>
      [("id"%string, map (fun e => TStr (ev_id e)) l);
       ("datetime"%string, map (fun e => TDatetime (ev_time e)) l);
       ("latitude"%string, map (fun e => TFloat (ev_latitude e)) l);
       ("longitude"%string, map (fun e => TFloat (ev_longitude e)) l);
       ("depth"%string, map (fun e => TFloat (ev_depth e)) l);
       ("magnitude"%string, map (fun e => TFloat (ev_magnitude e)) l);
       ("catlog_id"%string, map (fun _ => TId id) l)]
  end.

(** The loop is over [self._catalog] and reads the attributes [id],
    [time], ... of each element: the items of an array of numbers and
    byte strings have none, the items of an object array and of a list are
    the events. *)
Definition ComcatCatalog_get_dataframe (self : ref) : M world table :=
  o <- read self ;;
  match _catalog o with
  | PNone => raise TypeError
  | PArray a =>
      match arr_rows a with
      | [] => ret []
      | _ :: _ => raise AttributeError
      end
  | PObjectArray l | PEventList l => ret (table_of_events (catalog_id o) l)
  end.

(** The catalog of [self] after a filter that kept the rows [p]. *)
Definition kept (self : ref) (a : ndarray) (p : row -> bool) (w : world)
  : world :=
  stored self
    (set__catalog
       (PArray (mk_ndarray (arr_dtype a) (List.filter p (arr_rows a))))) w.

(** What every object built by [load_catalogs] from the file [fn] looks
    like: a [UCERF3Catalog] that carries the name of the file, its
    position as identifier, and an array of event records. *)
Definition is_loaded (fn : string) (id : Z) (o : instance) : Prop :=
  cls o = UCERF3Catalog
  /\ filename o = Some fn
  /\ catalog_id o = IdInt id
  /\ exists rows, _catalog o = PArray (mk_ndarray event_dtype rows).

(** The query that a [ComcatCatalog] sends: its region and its window. *)
Definition query_of (o : instance) : option query :=
  match min_magnitude o, min_latitude o, max_latitude o, min_longitude o,
        max_longitude o, start_time o, end_time o with
  | Some mag, Some lat0, Some lat1, Some lon0, Some lon1, Some t0, Some t1 =>
      Some (mk_query mag lat0 lat1 lon0 lon1 t0 t1)
  | _, _, _, _, _, _, _ => None
  end.

(** The object that [ComcatCatalog.__init__] has assigned when it calls
    the base constructor. *)
Definition comcat_attributes (a : comcat_args) (st et : datetime)
  : instance :=
  set_end_time et
    (set_start_time st
       (set_catalog_id (a_catalog_id a)
          (set_region (a_min_magnitude a) (a_min_latitude a)
             (a_max_latitude a) (a_min_longitude a) (a_max_longitude a)
             (blank ComcatCatalog)))).

(** ** Frames

    [keeps_window self w w'] says that from [w] to [w'] the object [self]
    stays in the store with the same time window; [preserves self m] that
    every run of [m] is such a step. *)
Definition keeps_window (self : ref) (w w' : world) : Prop :=
  forall o, lookup w self = Some o ->
  exists o', lookup w' self = Some o'
             /\ start_time o' = start_time o /\ end_time o' = end_time o.

Definition preserves {A} (self : ref) (m : M world A) : Prop :=
  forall w r w', m w = (r, w') -> keeps_window self w w'.

End Catalogs.

(* ===================================================================== *)
(** * The merged UCERF3 file, written out *)
(* ===================================================================== *)

(** The reader fixes the layout of a file: a big-endian [int32] count,
    then per catalog the two fields of [header_dtype] followed by as many
    items of [event_dtype] as the header announces.  [serialize] lays a
    list of catalogs out in that way; it is used to say what a well-formed
    file is. *)

Definition byte_of_Z (z : Z) : byte :=
  match Byte.of_N (Z.to_N (z mod 256)) with
  | Some b => b
  | None => x00
  end.

(** The [w] low bytes of [z], most significant first. *)
Fixpoint be_encode (w : nat) (z : Z) : list byte :=
  match w with
  | O => []
  | S w' => be_encode w' (z / 256) ++ [byte_of_Z z]
  end.

(** The bytes of one item of a big-endian numeric dtype, from the value of
    each field: the integer itself for an integer field, the bit pattern
    for a float field. *)
Fixpoint encode_row (d : dtype) (vals : list Z) : list byte :=
  match d, vals with
  | (_, t) :: d', v :: vals' => be_encode (width t) v ++ encode_row d' vals'
  | _, _ => []
  end.

(** The cell that a field holds when its bytes encode [v]. *)
Definition cell_of_value (t : scalar_type) (v : Z) : cell :=
  match t with
  | be_f8 => CFloat (float_of_bits 52 11 v)
  | _ => CInt v
  end.

(** The values that a field can hold: a signed integer of its width, or
    the 64 bits of a double. *)
Definition fits (t : scalar_type) (v : Z) : Prop :=
  match t with
  | be_i2 => (- 2 ^ 15 <= v < 2 ^ 15)%Z
  | be_i4 => (- 2 ^ 31 <= v < 2 ^ 31)%Z
  | be_i8 => (- 2 ^ 63 <= v < 2 ^ 63)%Z
  | be_f8 => (0 <= v < 2 ^ 64)%Z
  | le_f4 | bytes_S _ => False
  end.

(** A catalog as it lies in the file: the two bytes of its version field
    and its event records, each a byte string. *)
Record raw_catalog : Type := mk_raw_catalog {
  rc_file_version : list byte;
  rc_records : list (list byte)
}.

Definition serialize_catalog (c : raw_catalog) : list byte :=
  rc_file_version c
    ++ be_encode 4 (Z.of_nat (List.length (rc_records c)))
    ++ List.concat (rc_records c).

Definition serialize (cs : list raw_catalog) : list byte :=
  be_encode 4 (Z.of_nat (List.length cs))
    ++ List.concat (map serialize_catalog cs).

(** Every field has its width and the counts fit a signed [int32]. *)
Definition well_formed_catalog (c : raw_catalog) : Prop :=
  List.length (rc_file_version c) = 2%nat
  /\ Forall (fun r => List.length r = itemsize event_dtype) (rc_records c)
  /\ (Z.of_nat (List.length (rc_records c)) < 2 ^ 31)%Z.

Definition well_formed (cs : list raw_catalog) : Prop :=
  (Z.of_nat (List.length cs) < 2 ^ 31)%Z /\ Forall well_formed_catalog cs.

(** Rest of the file after the first [k] catalogs. *)
Definition remaining (k : nat) (cs : list raw_catalog) : list byte :=
  List.concat (map serialize_catalog (skipn k cs)).

Section Loaded.
Context {TU : TimeUtils}.

(** The generator after [k] catalogs of the file [serialize cs] have been
    yielded: not started, or suspended before the rest of the file. *)
Definition state_after (filename : string) (kw : base_kwargs)
    (cs : list raw_catalog) (k : nat) : generator :=
  match k with
  | O => gen_created filename (serialize cs) kw
  | S _ =>
      gen_suspended filename kw (remaining k cs) (Z.of_nat k)
        (Z.of_nat (List.length cs))
  end.

(** The object that [load_catalogs] builds for the catalog at position
    [catalog_id] of the file. *)
Definition u3_instance (filename : string) (kw : base_kwargs)
    (catalog_id : Z) (records : list (list byte)) : instance :=
  mk_instance UCERF3Catalog (Some filename) (IdInt catalog_id)
    (kw_format kw) (kw_name kw)
    (PArray (mk_ndarray event_dtype (map (decode_row event_dtype) records)))
    None None None None None None None.

(** The objects for the catalogs [cs], numbered from [first]. *)
Fixpoint u3_instances (filename : string) (kw : base_kwargs)
    (first : Z) (cs : list raw_catalog) : list instance :=
  match cs with
  | [] => []
  | c :: cs' =>
      u3_instance filename kw first (rc_records c)
        :: u3_instances filename kw (first + 1) cs'
  end.

End Loaded.

(* ===================================================================== *)
(** * A concrete setting *)
(* ===================================================================== *)

(** Concrete collaborators, on which the definitions above can be run. *)

(** The integer part of a float (0 for an infinity and for [nan]). *)
Definition trunc (x : float) : Z :=
  match Prim2SF x with
  | S754_finite s m e =>
      let a := if (0 <=? e)%Z then (Zpos m * 2 ^ e)%Z
               else (Zpos m / 2 ^ (- e))%Z in
      if s then (- a)%Z else a
  | _ => 0%Z
  end.

(** Datetimes as microseconds of UTC since the epoch, epochs in
    milliseconds, a year of 365.25 days. *)
Definition utc_micros : TimeUtils := {|
  datetime := Z;
  timedelta := Z;
  datetime_gt := Z.gtb;
  datetime_add := Z.add;
  epoch_time_to_utc_datetime := fun ms => (ms * 1000)%Z;
  timedelta_from_years := fun y => trunc (y * 31557600000000)%float;
  datetime_to_utc_epoch := fun t => float_of_int (t / 1000)
|}.

Definition digit (c : ascii) : option Z :=
  let n := (Z.of_nat (nat_of_ascii c) - 48)%Z in
  if ((0 <=? n) && (n <=? 9))%Z then Some n else None.

(** Digits with at most one point: the digits read as one integer, and
    the power of ten that the point divides it by. *)
Fixpoint scan (s : string) (num scale : Z) (dot any : bool) : option (Z * Z) :=
  match s with
  | EmptyString => if any then Some (num, scale) else None
  | String c s' =>
      if Ascii.eqb c "." then
        if dot then None else scan s' num scale true any
      else
        match digit c with
        | Some d =>
            scan s' (num * 10 + d)%Z (if dot then scale * 10 else scale)%Z
              dot true
        | None => None
        end
  end.

(** [float] on plain decimal literals such as ["4.0"] or ["-12.5"]: the
    quotient of two integers, which is the correctly rounded value as long
    as both are binary64 values. *)
Definition decimal_literal (s : string) : option float :=
  match s with
  | String "-" s' =>
      match scan s' 0 1 false false with
      | Some (n, sc) => Some (- (float_of_int n / float_of_int sc))%float
      | None => None
      end
  | _ =>
      match scan s 0 1 false false with
      | Some (n, sc) => Some (float_of_int n / float_of_int sc)%float
      | None => None
      end
  end.

Definition decimal_float : Builtins := {| py_float := decimal_literal |}.

(** A service that answers every query with the same events. *)
Definition fixed_remote (events : list (@ComcatEvent utc_micros))
  : @Remote utc_micros :=
  {| search := fun _ => Return events |}.

Definition sample_events : list (@ComcatEvent utc_micros) :=
  [@mk_event utc_micros "ci1" 1546300800000000%Z 34.5 (-118.25) 7.5 3.0;
   @mk_event utc_micros "ci2" 1546387200000000%Z 36.0 (-120.5) 10.0 4.5]%float.

(** One event record of the UCERF3 layout with the given identifier,
    origin time and magnitude (as the bits of a double); the other fields
    are zero. *)
Definition sample_record (rupture_id origin_time magnitude_bits : Z)
  : list byte :=
  be_encode 4 rupture_id ++ be_encode 4 0 ++ be_encode 2 0
    ++ be_encode 8 origin_time
    ++ be_encode 8 0 ++ be_encode 8 0 ++ be_encode 8 0
    ++ be_encode 8 magnitude_bits ++ be_encode 8 0
    ++ be_encode 4 0 ++ be_encode 4 0 ++ be_encode 4 0.

(** Bit patterns of the doubles 3.0, 4.0 and 5.5. *)
Definition bits_3_0 : Z := 0x4008000000000000.
Definition bits_4_0 : Z := 0x4010000000000000.
Definition bits_5_5 : Z := 0x4016000000000000.

(** Three records with magnitudes 3.0, 4.0 and 5.5. *)
Definition sample_records : list (list byte) :=
  [sample_record 1 1000 bits_3_0;
   sample_record 2 2000 bits_4_0;
   sample_record 3 3000 bits_5_5].

(** A file of two catalogs, of three records and of one record. *)
Definition sample_catalogs : list raw_catalog :=
  [mk_raw_catalog (be_encode 2 1) sample_records;
   mk_raw_catalog (be_encode 2 1) [sample_record 7 500 bits_4_0]].

(** The empty store. *)
Definition empty_world : @world utc_micros := mk_world [] [].

(** The store after the two catalogs of the sample file have been loaded:
    they are the objects 0 and 1. *)
Definition sample_world : @world utc_micros :=
  snd (drain (RM := fixed_remote sample_events) 5
         (gen_created "ucerf3.bin" (serialize sample_catalogs) default_kwargs)
         empty_world).

(** The file of the first sample catalog alone, cut 40 bytes into its
    third record: the header announces three records, two are whole. *)
Definition truncated_file : list byte :=
  firstn (4 + 6 + 2 * 70 + 40) (serialize [mk_raw_catalog (be_encode 2 1) sample_records]).

(** A query window from 2019-01-01 to 2019-01-03. *)
Definition sample_window : @comcat_args utc_micros :=
  @comcat_defaults utc_micros
    (Some 1546300800000000%Z) (Some 1546473600000000%Z) None None.

Definition eager (a : @comcat_args utc_micros) : @comcat_args utc_micros :=
  mk_comcat_args (a_min_magnitude a) (a_min_latitude a) (a_max_latitude a)
    (a_min_longitude a) (a_max_longitude a) (a_start_time a) (a_end_time a)
    (a_start_epoch a) (a_duration_in_years a) (a_catalog_id a)
    (mk_base_kwargs None PNone IdNone None None false).

(** The store after [ComcatCatalog(start_time=..., end_time=...)], in
    deferred-load mode: the catalog is the object 0. *)
Definition lazy_comcat_world : @world utc_micros :=
  snd (@ComcatCatalog_new utc_micros (fixed_remote sample_events)
         sample_window empty_world).

(** The store after [ComcatCatalog(start_time=..., end_time=...,
    lazy_load=False)] against a service that returns the sample events:
    the catalog is the object 0. *)
Definition comcat_world : @world utc_micros :=
  snd (@ComcatCatalog_new utc_micros (fixed_remote sample_events)
         (eager sample_window) empty_world).

(** The keyword arguments [lazy_load=False]. *)
Definition eager_kwargs : @base_kwargs utc_micros :=
  mk_base_kwargs None PNone IdNone None None false.

(** The object 0 of [lazy_comcat_world]. *)
Definition lazy_comcat_instance : @instance utc_micros :=
  base_attributes default_kwargs
    (comcat_attributes sample_window
       1546300800000000%Z 1546473600000000%Z).

(** The array of dtype ['>i4'], without fields, that holds the count read
    from the first four bytes of the sample file. *)
Definition sample_counts : ndarray :=
  fst (fromfile (serialize sample_catalogs) (plain be_i4) 1).

(** The store after [CSEPCatalog(catalog=sample_counts)]: the catalog is
    the object 0. *)
Definition counts_world : @world utc_micros :=
  snd (@CSEPCatalog_new utc_micros
         (mk_base_kwargs None (PArray sample_counts) IdNone None None true)
         empty_world).

(** The query of the sample window over the default region. *)
Definition sample_query : @query utc_micros :=
  @mk_query utc_micros 2.55 31.50 43.00 (-125.40) (-113.10)
    1546300800000000%Z 1546473600000000%Z.

(* ===================================================================== *)
(** * Properties *)
(* ===================================================================== *)

(** ** Lists and bytes *)

Lemma chunks_length (sz n : nat) (bs : list byte) :
  List.length (chunks sz n bs) = n.
Proof.
  revert bs; induction n as [|n IH]; intros bs; simpl; [reflexivity|].
  now rewrite IH.
Qed.

Lemma firstn_app_exact {A} (l1 l2 : list A) :
  firstn (List.length l1) (l1 ++ l2) = l1.
Proof.
  rewrite firstn_app, Nat.sub_diag, firstn_all. simpl. apply app_nil_r.
Qed.

Lemma skipn_app_exact {A} (l1 l2 : list A) :
  skipn (List.length l1) (l1 ++ l2) = l2.
Proof.
  rewrite skipn_app, Nat.sub_diag, skipn_all. reflexivity.
Qed.

(** Cutting the concatenation of [sz]-byte records gives the records back. *)
Lemma chunks_concat (sz : nat) (records : list (list byte)) (tail : list byte) :
  Forall (fun r => List.length r = sz) records ->
  chunks sz (List.length records) (List.concat records ++ tail) = records.
Proof.
  induction 1 as [|r rs Hr _ IH]; simpl; [reflexivity|].
  rewrite <- app_assoc, <- Hr, firstn_app_exact, skipn_app_exact.
  now rewrite Hr, IH.
Qed.

Lemma concat_length_uniform (sz : nat) (records : list (list byte)) :
  Forall (fun r => List.length r = sz) records ->
  List.length (List.concat records) = (List.length records * sz)%nat.
Proof.
  induction 1 as [|r rs Hr _ IH]; simpl; [reflexivity|].
  rewrite length_app, IH, Hr. reflexivity.
Qed.

(** ** [numpy.fromfile] *)

(** When the requested items are all there, they are what is read and
    the stream advances by exactly their bytes. *)
Lemma fromfile_enough (f : list byte) (dt : dtype) (n : nat) :
  (n * itemsize dt <= List.length f)%nat ->
  (0 < itemsize dt)%nat ->
  fromfile f dt (Z.of_nat n)
  = (mk_ndarray dt (map (decode_row dt) (chunks (itemsize dt) n f)),
     skipn (n * itemsize dt) f).
Proof.
  intros Hlen Hsz. unfold fromfile.
  destruct (Z.ltb_spec (Z.of_nat n) 0) as [Hneg|_]; [lia|].
  rewrite Nat2Z.id.
  destruct (Nat.leb_spec n (List.length f / itemsize dt)) as [_|Hlt].
  - reflexivity.
  - exfalso. rewrite Nat.mul_comm in Hlen.
    apply Nat.div_le_lower_bound in Hlen; lia.
Qed.

(** A short read: fewer whole items are left than were requested.  The
    array holds the whole items that are left and nothing is raised. *)
Lemma fromfile_short (f : list byte) (dt : dtype) (count : Z) :
  (Z.of_nat (List.length f / itemsize dt) < count)%Z ->
  fromfile f dt count
  = (mk_ndarray dt
       (map (decode_row dt)
          (chunks (itemsize dt) (List.length f / itemsize dt) f)),
     []).
Proof.
  intros Hlt. unfold fromfile.
  destruct (Z.ltb_spec count 0) as [Hneg|Hpos]; [lia|].
  destruct (Nat.leb_spec (Z.to_nat count) (List.length f / itemsize dt))
    as [Hle|_]; [lia|reflexivity].
Qed.

(** ** [numpy.cumsum(numpy.ones(n))] *)

Lemma cumsum_from_ones (k n : nat) :
  cumsum_from (Z.of_nat k) (ones n) = map Z.of_nat (seq (S k) n).
Proof.
  revert k; induction n as [|n IH]; intros k; simpl; [reflexivity|].
  replace (Z.of_nat k + 1)%Z with (Z.of_nat (S k)) by lia.
  now rewrite IH.
Qed.

Lemma cumsum_ones (n : nat) : cumsum (ones n) = map Z.of_nat (seq 1 n).
Proof. exact (cumsum_from_ones 0 n). Qed.

(** ** [numpy.where] followed by indexing is a filter *)

Lemma gather_where_from {A} (p : A -> bool) (pre xs : list A) :
  gather (pre ++ xs) (where_from (List.length pre) (map p xs))
  = Return (List.filter p xs).
Proof.
  revert pre; induction xs as [|x xs IH]; intros pre; simpl; [reflexivity|].
  assert (Hstep : gather (pre ++ x :: xs)
                    (where_from (S (List.length pre)) (map p xs))
                  = Return (List.filter p xs)).
  { specialize (IH (pre ++ [x])).
    rewrite <- app_assoc, length_app in IH. simpl in IH.
    now rewrite Nat.add_1_r in IH. }
  destruct (p x); simpl; [|exact Hstep].
  unfold getitem_index. rewrite nth_error_app2, Nat.sub_diag by lia. simpl.
  now rewrite Hstep.
Qed.

Lemma gather_where {A} (p : A -> bool) (xs : list A) :
  gather xs (where_ (map p xs)) = Return (List.filter p xs).
Proof. exact (gather_where_from p [] xs). Qed.


(** ** The store *)

Section Properties.
Context {TU : TimeUtils} {BI : Builtins} {RM : Remote}.

Local Open Scope py_scope.

Lemma nth_error_update_nth_same {A} (f : A -> A) (l : list A) (n : nat) (x : A) :
  nth_error l n = Some x -> nth_error (update_nth n f l) n = Some (f x).
Proof.
  revert n; induction l as [|y l IH]; intros [|n] H; simpl in *;
    try discriminate.
  - now inversion H.
  - now apply IH.
Qed.

Lemma nth_error_update_nth_other {A} (f : A -> A) (l : list A) (n m : nat) :
  n <> m -> nth_error (update_nth n f l) m = nth_error l m.
Proof.
  revert n m; induction l as [|y l IH]; intros [|n] [|m] H; simpl;
    try reflexivity; try congruence.
  apply IH. congruence.
Qed.

Lemma update_nth_twice {A} (f g : A -> A) (l : list A) (n : nat) :
  update_nth n g (update_nth n f l) = update_nth n (fun x => g (f x)) l.
Proof.
  revert n; induction l as [|y l IH]; intros [|n]; simpl; try reflexivity.
  now rewrite IH.
Qed.

Lemma update_nth_ext {A} (f g : A -> A) (l : list A) (n : nat) :
  (forall x, f x = g x) -> update_nth n f l = update_nth n g l.
Proof.
  intros H. revert n; induction l as [|y l IH]; intros [|n]; simpl;
    try reflexivity.
  - now rewrite H.
  - now rewrite IH.
Qed.

Lemma update_nth_id {A} (f : A -> A) (l : list A) (n : nat) (x : A) :
  nth_error l n = Some x -> f x = x -> update_nth n f l = l.
Proof.
  revert n; induction l as [|y l IH]; intros [|n] H E; simpl in *;
    try discriminate; try reflexivity.
  - inversion H; subst. now rewrite E.
  - f_equal. now apply IH.
Qed.

Lemma update_nth_length {A} (f : A -> A) (l : list A) (n : nat) :
  List.length (update_nth n f l) = List.length l.
Proof.
  revert n; induction l as [|y l IH]; intros [|n]; simpl; try reflexivity.
  now rewrite IH.
Qed.

Lemma lookup_stored_same self f w o :
  lookup w self = Some o -> lookup (stored self f w) self = Some (f o).
Proof. apply nth_error_update_nth_same. Qed.

Lemma lookup_stored_other self r f w :
  self <> r -> lookup (stored self f w) r = lookup w r.
Proof. apply nth_error_update_nth_other. Qed.

Lemma stored_twice self f g w :
  stored self g (stored self f w) = stored self (fun x => g (f x)) w.
Proof. unfold stored; simpl. now rewrite update_nth_twice. Qed.

Lemma trace_stored self f w : trace (stored self f w) = trace w.
Proof. reflexivity. Qed.

Lemma read_spec self w o :
  lookup w self = Some o -> read self w = (Return o, w).
Proof. intros H. unfold read. now rewrite H. Qed.

Lemma write_spec self f w : write self f w = (Return tt, stored self f w).
Proof. reflexivity. Qed.

Lemma catalog_getter_spec self w o :
  lookup w self = Some o -> catalog_getter self w = (Return (_catalog o), w).
Proof. intros H. unfold catalog_getter, bind. now rewrite (read_spec _ _ H). Qed.

Lemma set__catalog_twice v1 v2 o :
  set__catalog v2 (set__catalog v1 o) = set__catalog v2 o.
Proof. reflexivity. Qed.

Lemma stored_set_twice self v1 v2 w :
  stored self (set__catalog v2) (stored self (set__catalog v1) w)
  = stored self (set__catalog v2) w.
Proof.
  rewrite stored_twice. reflexivity.
Qed.

(** ** The setter of [catalog] *)

Lemma catalog_setter_none self w o :
  lookup w self = Some o ->
  catalog_setter self PNone w = (Return tt, stored self (set__catalog PNone) w).
Proof.
  intros H. unfold catalog_setter, bind. rewrite write_spec.
  rewrite (read_spec _ _ (lookup_stored_same _ (set__catalog PNone) _ H)).
  reflexivity.
Qed.

Lemma catalog_setter_array self a w o :
  lookup w self = Some o ->
  catalog_setter self (PArray a) w
  = (Return tt, stored self (set__catalog (PArray a)) w).
Proof.
  intros H. unfold catalog_setter, bind. rewrite write_spec.
  rewrite (read_spec _ _ (lookup_stored_same _ (set__catalog (PArray a)) _ H)).
  reflexivity.
Qed.

(** An array of any kind is kept as it is. *)
Lemma catalog_setter_ndarray self v w o :
  lookup w self = Some o ->
  is_ndarray v = true ->
  catalog_setter self v w = (Return tt, stored self (set__catalog v) w).
Proof.
  intros H Hv. unfold catalog_setter, bind. rewrite write_spec.
  rewrite (read_spec _ _ (lookup_stored_same _ (set__catalog v) _ H)).
  cbn [_catalog set__catalog]. rewrite Hv.
  destruct v; try discriminate; reflexivity.
Qed.

(** On a [ComcatCatalog] an event list is converted, one row per event. *)
Lemma catalog_setter_events_comcat self l w o :
  lookup w self = Some o ->
  cls o = ComcatCatalog ->
  catalog_setter self (PEventList l) w
  = (Return tt,
     stored self
       (set__catalog (PArray (mk_ndarray comcat_dtype (map row_of_event l))))
       w).
Proof.
  intros H Hc. unfold catalog_setter, bind. rewrite write_spec.
  pose proof (lookup_stored_same _ (set__catalog (PEventList l)) _ H) as H1.
  rewrite (read_spec _ _ H1). simpl.
  unfold get_catalog_as_ndarray, bind. rewrite (read_spec _ _ H1). simpl.
  rewrite Hc. unfold ComcatCatalog_get_catalog_as_ndarray, bind.
  rewrite (catalog_getter_spec _ _ H1). simpl.
  rewrite write_spec, stored_set_twice. reflexivity.
Qed.

(** On the other classes the conversion method does not exist: the
    assignment fails after the value has been stored as it is. *)
Lemma catalog_setter_events_other self l w o :
  lookup w self = Some o ->
  cls o <> ComcatCatalog ->
  catalog_setter self (PEventList l) w
  = (Raise AttributeError, stored self (set__catalog (PEventList l)) w).
Proof.
  intros H Hc. unfold catalog_setter, bind. rewrite write_spec.
  pose proof (lookup_stored_same _ (set__catalog (PEventList l)) _ H) as H1.
  rewrite (read_spec _ _ H1). simpl.
  unfold get_catalog_as_ndarray, bind. rewrite (read_spec _ _ H1). simpl.
  destruct (cls o); try reflexivity. congruence.
Qed.

(** An assignment that completes leaves [None] or an array. *)
Lemma catalog_setter_completed self val w w' o :
  lookup w self = Some o ->
  catalog_setter self val w = (Return tt, w') ->
  exists o', lookup w' self = Some o'
             /\ (_catalog o' = PNone \/ is_ndarray (_catalog o') = true).
Proof.
  intros H E. destruct val as [|a|l|l].
  - rewrite (catalog_setter_none _ _ H) in E. inversion E; subst.
    eexists. split; [apply (lookup_stored_same _ _ _ H)|]. now left.
  - rewrite (catalog_setter_array _ a _ H) in E. inversion E; subst.
    eexists. split; [apply (lookup_stored_same _ _ _ H)|]. now right.
  - rewrite (@catalog_setter_ndarray self (PObjectArray l) w o H eq_refl) in E.
    inversion E; subst.
    eexists. split; [apply (lookup_stored_same _ _ _ H)|]. now right.
  - destruct (cls o) eqn:Hc.
    1-3: rewrite (catalog_setter_events_other _ l _ H) in E by congruence;
         discriminate.
    rewrite (catalog_setter_events_comcat _ l _ H Hc) in E.
    inversion E; subst.
    eexists. split; [apply (lookup_stored_same _ _ _ H)|]. now right.
Qed.

(** C9.  What an assignment to [catalog] does with a value that is not an
    array.  On a [ComcatCatalog] the conversion runs and the assignment
    completes with the array of the converted rows.  On the other classes
    the conversion method is missing: the assignment raises
    [AttributeError] and the value stays stored as it was given.  On every
    class an assignment that completes leaves [None] or an array. *)
Theorem C9_setter_normalizes_only_comcat self w o l :
  lookup w self = Some o ->
  (cls o = ComcatCatalog ->
   catalog_setter self (PEventList l) w
   = (Return tt,
      stored self
        (set__catalog (PArray (mk_ndarray comcat_dtype (map row_of_event l))))
        w))
  /\ (cls o <> ComcatCatalog ->
      catalog_setter self (PEventList l) w
      = (Raise AttributeError, stored self (set__catalog (PEventList l)) w))
  /\ (forall val w',
        catalog_setter self val w = (Return tt, w') ->
        exists o', lookup w' self = Some o'
                   /\ (_catalog o' = PNone \/ is_ndarray (_catalog o') = true)).
Proof.
  intros H. repeat split.
  - intros Hc. eapply catalog_setter_events_comcat; eassumption.
  - intros Hc. eapply catalog_setter_events_other; eassumption.
  - intros val w' E. eapply catalog_setter_completed; eassumption.
Qed.

(** ** [str.split] on a statement of three tokens *)

Lemma split_no_sep sep s : no_sep sep s = true -> split sep s = [s].
Proof.
  induction s as [|c s IH]; simpl; [reflexivity|].
  intros H. apply andb_true_iff in H as [Hc Hs].
  apply negb_true_iff in Hc. rewrite Hc, (IH Hs). reflexivity.
Qed.

Lemma split_token sep s rest :
  no_sep sep s = true ->
  split sep (s ++ String sep rest) = s :: split sep rest.
Proof.
  induction s as [|c s IH]; simpl; intros H.
  - now rewrite Ascii.eqb_refl.
  - apply andb_true_iff in H as [Hc Hs]. apply negb_true_iff in Hc.
    rewrite Hc, (IH Hs). reflexivity.
Qed.

Lemma split_statement name type value :
  no_sep " " name = true -> no_sep " " type = true ->
  no_sep " " value = true ->
  split " " (name ++ " " ++ type ++ " " ++ value) = [name; type; value].
Proof.
  intros Hn Ht Hv. simpl.
  rewrite (split_token _ _ _ Hn), (split_token _ _ _ Ht).
  now rewrite (split_no_sep _ _ Hv).
Qed.

(** ** The [operators] table *)

Lemma dict_get_missing {V} (d : list (string * V)) k :
  ~ In k (map fst d) -> dict_get d k = Raise KeyError.
Proof.
  induction d as [|[k' v] d IH]; simpl; intros H; [reflexivity|].
  destruct (String.eqb_spec k' k) as [->|_]; [tauto|].
  apply IH. tauto.
Qed.

Lemma dict_get_present {V} (d : list (string * V)) k :
  In k (map fst d) -> exists v, dict_get d k = Return v.
Proof.
  induction d as [|[k' v] d IH]; simpl; intros H; [tauto|].
  destruct (String.eqb_spec k' k) as [->|Hne]; [now exists v|].
  apply IH. destruct H; congruence.
Qed.

(** ** [filter] *)

(** Fancy indexing gives an array. *)
Lemma getitem_where_ndarray c idx v :
  getitem_where c idx = Return v -> is_ndarray v = true.
Proof.
  destruct c as [|a|l|l]; cbn [getitem_where]; try discriminate.
  - destruct (take a idx); [|discriminate]. intros H. now inversion H.
  - destruct (gather l idx); [|discriminate]. intros H. now inversion H.
Qed.

(** What a successful [filter] does on a numeric field. *)
Lemma filter_numeric self w o a statement name type value op t i v :
  lookup w self = Some o ->
  _catalog o = PArray a ->
  split " " statement = [name; type; value] ->
  dict_get operators type = Return op ->
  field_lookup (arr_dtype a) name = Some (t, i) ->
  numeric t = true ->
  py_float value = Some v ->
  filter self statement w
  = (Return self,
     stored self
       (set__catalog
          (PArray (mk_ndarray (arr_dtype a)
                     (List.filter (selects op i v) (arr_rows a)))))
       w).
Proof.
  intros Hl Ha Hs Hop Hf Hnum Hv. unfold filter. rewrite Hs.
  unfold bind at 1. unfold lift at 1. rewrite Hop.
  unfold bind at 1. rewrite (catalog_getter_spec _ _ Hl), Ha.
  unfold bind at 1. unfold lift at 1. simpl getitem_name.
  unfold getitem_field. rewrite Hf.
  unfold bind at 1. unfold lift at 1, float_. rewrite Hv.
  unfold bind at 1. unfold lift at 1, compare. simpl fst; simpl snd.
  rewrite Hnum, map_map.
  unfold bind at 1. rewrite (catalog_getter_spec _ _ Hl), Ha.
  unfold bind at 1. unfold lift at 1. simpl getitem_where. unfold take.
  change (fun x : row => compare_cell op (nth i x (CInt 0)) v)
    with (selects op i v).
  rewrite gather_where.
  unfold bind at 1. rewrite (catalog_setter_array _ _ _ Hl).
  reflexivity.
Qed.

(** C2 (as amended).  On a catalog whose record sequence is an array, for
    a statement ["<field> <operator> <value>"] whose operator is a key of
    the table, whose field is a numeric field of the dtype and whose value
    [float] accepts, [filter] returns the reference [self] it was called
    on, and the only change of the store is that the record sequence of
    [self] is the array of the same dtype holding, in their original order,
    exactly the rows on which the comparison with the float holds. *)
Theorem C2_filter_selects_rows_in_place
    self w o a name type value op t i v :
  lookup w self = Some o ->
  _catalog o = PArray a ->
  no_sep " " name = true ->
  no_sep " " type = true ->
  no_sep " " value = true ->
  dict_get operators type = Return op ->
  field_lookup (arr_dtype a) name = Some (t, i) ->
  numeric t = true ->
  py_float value = Some v ->
  filter self (name ++ " " ++ type ++ " " ++ value) w
  = (Return self,
     stored self
       (set__catalog
          (PArray (mk_ndarray (arr_dtype a)
                     (List.filter (selects op i v) (arr_rows a)))))
       w).
Proof.
  intros Hl Ha Hn Ht Hv Hop Hf Hnum Hpf.
  eapply filter_numeric; eauto using split_statement.
Qed.

(** C7 (as amended).  On a statement of three tokens, an operator token
    that is no key of the table makes [filter] raise [KeyError]; a
    supported operator with a field that the dtype of the bound structured
    array lacks makes it raise [ValueError]; a supported operator on a
    bound array that has no fields at all makes it raise [IndexError],
    whatever the field token.  In every case nothing is returned and the
    store is unchanged. *)
Theorem C7_filter_rejects_unknown_operator_and_field
    self w o statement name type value :
  lookup w self = Some o ->
  split " " statement = [name; type; value] ->
  (~ In type (map fst operators) ->
   filter self statement w = (Raise KeyError, w))
  /\ (forall a,
        In type (map fst operators) ->
        _catalog o = PArray a ->
        has_fields (arr_dtype a) = true ->
        field_lookup (arr_dtype a) name = None ->
        filter self statement w = (Raise ValueError, w))
  /\ (forall a,
        In type (map fst operators) ->
        _catalog o = PArray a ->
        has_fields (arr_dtype a) = false ->
        filter self statement w = (Raise IndexError, w)).
Proof.
  intros Hl Hs.
  assert (Hfield : forall a,
            In type (map fst operators) ->
            _catalog o = PArray a ->
            field_lookup (arr_dtype a) name = None ->
            filter self statement w = (Raise (no_field (arr_dtype a)), w)).
  { intros a Hop Ha Hf. unfold filter. rewrite Hs.
    destruct (dict_get_present _ _ Hop) as [op Hop'].
    unfold bind at 1. unfold lift at 1. rewrite Hop'.
    unfold bind at 1. rewrite (catalog_getter_spec _ _ Hl), Ha.
    unfold bind at 1. unfold lift at 1. simpl getitem_name.
    unfold getitem_field. now rewrite Hf. }
  split; [|split].
  - intros Hop. unfold filter. rewrite Hs. unfold bind, lift.
    now rewrite (dict_get_missing _ _ Hop).
  - intros a Hop Ha Hfs Hf. rewrite (Hfield a Hop Ha Hf).
    unfold no_field. now rewrite Hfs.
  - intros a Hop Ha Hfs. rewrite (Hfield a Hop Ha).
    + unfold no_field. now rewrite Hfs.
    + unfold field_lookup. now rewrite Hfs.
Qed.

(** C10.  Whenever [filter] raises, for whatever reason, the store is the
    one it was called in: the record sequence is replaced only after the
    selection has succeeded. *)
Theorem C10_filter_failure_leaves_catalog self w statement e w' :
  filter self statement w = (Raise e, w') -> w' = w.
Proof.
  unfold filter.
  destruct (split " " statement) as [|name [|type [|value [|? ?]]]];
    try (unfold raise; intros H; now inversion H).
  unfold bind at 1. unfold lift at 1.
  destruct (dict_get operators type) as [op|e1];
    [|intros H; now inversion H].
  unfold bind at 1. unfold catalog_getter at 1. unfold bind at 1, read at 1.
  destruct (lookup w self) as [o|] eqn:Hl; [|intros H; now inversion H].
  unfold ret at 1.
  unfold bind at 1. unfold lift at 1.
  destruct (getitem_name (_catalog o) name) as [col|e1];
    [|intros H; now inversion H].
  unfold bind at 1. unfold lift at 1.
  destruct (float_ value) as [v|e1]; [|intros H; now inversion H].
  unfold bind at 1. unfold lift at 1.
  destruct (compare op col v) as [mask|e1]; [|intros H; now inversion H].
  unfold bind at 1. rewrite (catalog_getter_spec _ _ Hl).
  unfold bind at 1. unfold lift at 1.
  destruct (getitem_where (_catalog o) (where_ mask)) as [filtered|e1] eqn:Hw;
    [|intros H; now inversion H].
  unfold bind at 1.
  rewrite (@catalog_setter_ndarray self filtered w o Hl
             (getitem_where_ndarray _ _ Hw)).
  unfold ret. intros H. discriminate H.
Qed.

(** C8.  On a catalog whose record sequence is an array of N rows,
    [get_number_of_events] returns N and
    [get_cumulative_number_of_events] returns 1, 2, ..., N; when the record
    sequence is [None] they return 0 and the empty sequence.  Neither
    changes the store. *)
Theorem C8_number_and_cumulative_number_of_events self w o :
  lookup w self = Some o ->
  (forall a, _catalog o = PArray a ->
     get_number_of_events self w = (Return (len a), w)
     /\ get_cumulative_number_of_events self w
        = (Return (map Z.of_nat (seq 1 (len a))), w))
  /\ (_catalog o = PNone ->
      get_number_of_events self w = (Return O, w)
      /\ get_cumulative_number_of_events self w = (Return [], w)).
Proof.
  intros Hl. split.
  - intros a Ha.
    assert (Hn : get_number_of_events self w = (Return (len a), w)).
    { unfold get_number_of_events, bind.
      rewrite (catalog_getter_spec _ _ Hl), Ha. reflexivity. }
    split; [exact Hn|].
    unfold get_cumulative_number_of_events, bind. rewrite Hn.
    unfold ret. now rewrite cumsum_ones.
  - intros Ha.
    assert (Hn : get_number_of_events self w = (Return O, w)).
    { unfold get_number_of_events, bind.
      rewrite (catalog_getter_spec _ _ Hl), Ha. reflexivity. }
    split; [exact Hn|].
    unfold get_cumulative_number_of_events, bind. now rewrite Hn.
Qed.

End Properties.

(** C4 (as amended).  One item of [event_dtype] takes 70 bytes, and
    reading [n] event records that are all there consumes [n * 70] bytes
    and gives an array of [n] rows. *)
Theorem C4_event_record_is_70_bytes :
  itemsize event_dtype = 70%nat
  /\ forall (f : list byte) (n : nat),
       (n * 70 <= List.length f)%nat ->
       len (fst (fromfile f event_dtype (Z.of_nat n))) = n
       /\ (List.length (snd (fromfile f event_dtype (Z.of_nat n))) + n * 70
           = List.length f)%nat.
Proof.
  split; [reflexivity|]. intros f n Hlen.
  change 70%nat with (itemsize event_dtype) in Hlen.
  rewrite (fromfile_enough f event_dtype n Hlen) by (vm_compute; lia).
  simpl fst; simpl snd. unfold len; simpl arr_rows.
  rewrite length_map, chunks_length. split; [reflexivity|].
  rewrite length_skipn. change (itemsize event_dtype) with 70%nat in *. lia.
Qed.

(** ** Construction *)

Section Construction.
Context {TU : TimeUtils} {RM : Remote}.

Local Open Scope py_scope.

Lemma keeps_window_refl self w : keeps_window self w w.
Proof. intros o H. now exists o. Qed.

Lemma keeps_window_trans self w1 w2 w3 :
  keeps_window self w1 w2 -> keeps_window self w2 w3 ->
  keeps_window self w1 w3.
Proof.
  intros H12 H23 o H. destruct (H12 o H) as (o2 & H2 & Hs2 & He2).
  destruct (H23 o2 H2) as (o3 & H3 & Hs3 & He3).
  exists o3. repeat split; congruence.
Qed.

Lemma preserves_ret {A} self (a : A) : preserves self (ret a).
Proof. intros w r w' H. inversion H. apply keeps_window_refl. Qed.

Lemma preserves_raise {A} self e : preserves self (@raise world A e).
Proof. intros w r w' H. inversion H. apply keeps_window_refl. Qed.

Lemma preserves_lift {A} self (x : result A) : preserves self (lift x).
Proof. intros w r w' H. inversion H. apply keeps_window_refl. Qed.

Lemma preserves_read self r : preserves self (read r).
Proof.
  intros w x w' H. unfold read in H.
  destruct (lookup w r); inversion H; apply keeps_window_refl.
Qed.

Lemma preserves_emit self e : preserves self (emit e).
Proof. intros w r w' H. inversion H. intros o Ho. now exists o. Qed.

Lemma preserves_attr {A} self (v : option A) : preserves self (attr v).
Proof. destruct v; [apply preserves_ret | apply preserves_raise]. Qed.

Lemma preserves_write self r f :
  (forall x, start_time (f x) = start_time x /\ end_time (f x) = end_time x) ->
  preserves self (write r f).
Proof.
  intros Hf w x w' H. rewrite write_spec in H. inversion H; subst.
  intros o Ho. destruct (Nat.eq_dec r self) as [->|Hne].
  - exists (f o). split; [now apply lookup_stored_same|apply Hf].
  - exists o. rewrite (lookup_stored_other f w Hne). auto.
Qed.

Lemma preserves_bind {A B} self (c : M world A) (k : A -> M world B) :
  preserves self c -> (forall a, preserves self (k a)) ->
  preserves self (bind c k).
Proof.
  intros Hc Hk w r w' H. unfold bind in H.
  destruct (c w) as [[a|e] w1] eqn:E.
  - eapply keeps_window_trans; [exact (Hc _ _ _ E)|exact (Hk _ _ _ _ H)].
  - inversion H; subst. exact (Hc _ _ _ E).
Qed.

Ltac frame :=
  repeat first
    [ apply preserves_ret | apply preserves_raise | apply preserves_lift
    | apply preserves_read | apply preserves_emit | apply preserves_attr
    | apply preserves_write; intros; split; reflexivity
    | apply preserves_bind; [|intros]
    | match goal with
      | |- preserves _ (match ?x with _ => _ end) => destruct x
      end ].

Lemma preserves_catalog_setter self r val :
  preserves self (catalog_setter r val).
Proof.
  unfold catalog_setter, get_catalog_as_ndarray,
    ComcatCatalog_get_catalog_as_ndarray, catalog_getter.
  frame.
Qed.

Lemma preserves_load_catalog self r : preserves self (load_catalog r).
Proof.
  unfold load_catalog, ComcatCatalog_load_catalog, BaseCatalog_load_catalog.
  frame; apply preserves_catalog_setter.
Qed.

Lemma preserves_BaseCatalog_init self r kw :
  preserves self (BaseCatalog_init r kw).
Proof.
  unfold BaseCatalog_init, catalog_getter.
  frame; first [apply preserves_catalog_setter | apply preserves_load_catalog].
Qed.

Lemma lookup_new (c : class) (w : world) :
  lookup (mk_world (heap w ++ [blank c]) (trace w)) (List.length (heap w))
  = Some (blank c).
Proof.
  unfold lookup; simpl. rewrite nth_error_app2, Nat.sub_diag by lia.
  reflexivity.
Qed.

(** The checks of [ComcatCatalog.__init__] that come before the call of
    the base constructor, as one evaluation: the outcome for a time
    window that resolves to [st] and [et]. *)
Lemma ComcatCatalog_init_resolved self a w st et :
  resolve_start a = Return st ->
  resolve_end a st = Return et ->
  ComcatCatalog_init self a w
  = let w1 :=
      stored self (set_end_time et)
        (stored self (set_start_time st)
           (stored self (set_catalog_id (a_catalog_id a))
              (stored self
                 (set_region (a_min_magnitude a) (a_min_latitude a)
                    (a_max_latitude a) (a_min_longitude a)
                    (a_max_longitude a)) w))) in
    if datetime_gt st et then (Raise ValueError, w1)
    else BaseCatalog_init self (a_kwargs a) w1.
Proof.
  intros Hs He. unfold ComcatCatalog_init.
  unfold bind at 1. rewrite write_spec.
  unfold bind at 1. rewrite write_spec.
  assert (Hs' : match a_start_time a, a_start_epoch a with
                | None, None => False | _, _ => True end).
  { unfold resolve_start in Hs.
    destruct (a_start_time a), (a_start_epoch a); try exact I. discriminate. }
  assert (He' : match a_end_time a, a_duration_in_years a with
                | None, None => False | _, _ => True end).
  { unfold resolve_end in He.
    destruct (a_end_time a), (a_duration_in_years a); try exact I.
    discriminate. }
  destruct (a_start_time a) as [t0|], (a_start_epoch a) as [e0|];
    try contradiction;
    destruct (a_end_time a) as [t1|], (a_duration_in_years a) as [y|];
    try contradiction;
    unfold bind, lift; rewrite Hs, !write_spec, He;
    cbv zeta; destruct (datetime_gt st et); reflexivity.
Qed.

(** C6.  A [ComcatCatalog] cannot be built without a start form, without
    an end form, or with a start later than the end: the construction
    raises [ValueError] and the trace of loads and remote queries is what
    it was.  An explicit [start_time] is the start whatever [start_epoch]
    is, an explicit [end_time] is the end whatever [duration_in_years]
    is, and these are the attributes of the object whenever the window
    resolves. *)
Theorem C6_comcat_time_window_validation (a : comcat_args) (w : world) :
  (a_start_time a = None -> a_start_epoch a = None ->
   exists w', ComcatCatalog_new a w = (Raise ValueError, w')
              /\ trace w' = trace w)
  /\ (a_end_time a = None -> a_duration_in_years a = None ->
      exists w', ComcatCatalog_new a w = (Raise ValueError, w')
                 /\ trace w' = trace w)
  /\ (forall st et,
        resolve_start a = Return st -> resolve_end a st = Return et ->
        datetime_gt st et = true ->
        exists w', ComcatCatalog_new a w = (Raise ValueError, w')
                   /\ trace w' = trace w)
  /\ (forall t, a_start_time a = Some t -> resolve_start a = Return t)
  /\ (forall t st, a_end_time a = Some t -> resolve_end a st = Return t)
  /\ (forall st et r w',
        resolve_start a = Return st -> resolve_end a st = Return et ->
        ComcatCatalog_new a w = (r, w') ->
        exists o, lookup w' (List.length (heap w)) = Some o
                  /\ start_time o = Some st /\ end_time o = Some et).
Proof.
  repeat split.
  - intros Hs He. eexists. split.
    + unfold ComcatCatalog_new, ComcatCatalog_init.
      unfold bind at 1. unfold new at 1.
      unfold bind at 1. unfold bind at 1. rewrite write_spec.
      unfold bind at 1. rewrite write_spec. rewrite Hs, He. reflexivity.
    + reflexivity.
  - intros Hs He. eexists. split.
    + unfold ComcatCatalog_new, ComcatCatalog_init.
      unfold bind at 1. unfold new at 1.
      unfold bind at 1. unfold bind at 1. rewrite write_spec.
      unfold bind at 1. rewrite write_spec. rewrite Hs, He.
      destruct (a_start_time a), (a_start_epoch a); reflexivity.
    + reflexivity.
  - intros st et Hs He Hgt. eexists. split.
    + unfold ComcatCatalog_new. unfold bind at 1. unfold new at 1.
      unfold bind at 1.
      rewrite (ComcatCatalog_init_resolved _ _ _ Hs He). cbv zeta.
      rewrite Hgt. reflexivity.
    + reflexivity.
  - intros t Ht. unfold resolve_start. now rewrite Ht.
  - intros t st Ht. unfold resolve_end. now rewrite Ht.
  - intros st et r w' Hs He Hnew.
    unfold ComcatCatalog_new in Hnew. unfold bind at 1 in Hnew.
    unfold new at 1 in Hnew. unfold bind at 1 in Hnew.
    rewrite (ComcatCatalog_init_resolved _ _ _ Hs He) in Hnew.
    cbv zeta in Hnew.
    set (self := List.length (heap w)) in *.
    set (w0 := mk_world (heap w ++ [blank ComcatCatalog]) (trace w)) in *.
    pose proof (lookup_new ComcatCatalog w) as H0. fold self w0 in H0.
    match type of Hnew with
    | context [stored self (set_end_time et) ?x] => set (w3 := x) in *
    end.
    assert (H4 : exists o, lookup (stored self (set_end_time et) w3) self
                           = Some o
                           /\ start_time o = Some st /\ end_time o = Some et).
    { eexists. split.
      - apply lookup_stored_same. subst w3.
        repeat apply lookup_stored_same. exact H0.
      - split; reflexivity. }
    destruct H4 as (o4 & Ho4 & Hs4 & He4).
    destruct (datetime_gt st et).
    + inversion Hnew; subst. now exists o4.
    + destruct (BaseCatalog_init self (a_kwargs a)
                  (stored self (set_end_time et) w3)) as [[u|e] w5] eqn:E.
      * pose proof (preserves_BaseCatalog_init self self (a_kwargs a)) as P.
        unfold preserves, keeps_window in P.
        destruct (P _ _ _ E _ Ho4) as (o5 & Ho5 & Hs5 & He5).
        unfold ret in Hnew. inversion Hnew; subst.
        exists o5. repeat split; congruence.
      * pose proof (preserves_BaseCatalog_init self self (a_kwargs a)) as P.
        unfold preserves, keeps_window in P.
        destruct (P _ _ _ E _ Ho4) as (o5 & Ho5 & Hs5 & He5).
        inversion Hnew; subst.
        exists o5. repeat split; congruence.
Qed.

(** ** Deferred loading *)

(** Reading [self.catalog] any number of times returns what is stored and
    changes nothing: no loader runs. *)
Lemma access_spec n self w o :
  lookup w self = Some o ->
  access n self w = (Return (repeat (_catalog o) n), w).
Proof.
  intros H. induction n as [|n IH]; simpl; [reflexivity|].
  unfold bind at 1. rewrite (catalog_getter_spec _ _ H).
  unfold bind at 1. rewrite IH. reflexivity.
Qed.

Lemma BaseCatalog_init_deferred self kw w o :
  lookup w self = Some o ->
  kw_catalog kw = PNone ->
  kw_lazy_load kw = true ->
  BaseCatalog_init self kw w
  = (Return tt, stored self (base_attributes kw) w).
Proof.
  intros Hl Hc Hz. unfold BaseCatalog_init.
  repeat (unfold bind at 1; rewrite write_spec).
  rewrite !stored_twice.
  match goal with
  | |- context [stored self ?f w] =>
      pose proof (lookup_stored_same self f w Hl) as H1
  end.
  unfold bind at 1. rewrite Hc, (catalog_setter_none _ _ H1), stored_twice.
  match goal with
  | |- context [stored self ?f w] =>
      pose proof (lookup_stored_same self f w Hl) as H2
  end.
  unfold bind at 1. rewrite (catalog_getter_spec _ _ H2), Hz.
  reflexivity.
Qed.

Lemma CSEPCatalog_init_none self kw w o :
  lookup w self = Some o ->
  kw_catalog kw = PNone ->
  CSEPCatalog_init self kw w
  = (Return tt,
     stored self
       (fun o => set__catalog PNone
                   (set_catalog_id (kw_catalog_id kw)
                      (set_filename (kw_filename kw) o))) w).
Proof.
  intros Hl Hc. unfold CSEPCatalog_init.
  repeat (unfold bind at 1; rewrite write_spec).
  rewrite !stored_twice.
  match goal with
  | |- context [stored self ?f w] =>
      pose proof (lookup_stored_same self f w Hl) as H1
  end.
  rewrite Hc, (catalog_setter_none _ _ H1), stored_twice. reflexivity.
Qed.

(** C5 (as amended).  A catalog built in deferred-load mode without a
    record sequence is built without running any loading procedure, and
    no access to its record sequence runs one either: every access
    returns [None] and leaves the store and the trace as they are. *)
Theorem C5_deferred_catalog_is_not_loaded_on_access
    (kw : base_kwargs) (w : world) :
  kw_catalog kw = PNone ->
  kw_lazy_load kw = true ->
  (forall new_,
      In new_ [BaseCatalog_new; CSEPCatalog_new; UCERF3Catalog_new] ->
      exists w',
        new_ kw w = (Return (List.length (heap w)), w')
        /\ trace w' = trace w
        /\ forall n,
             access n (List.length (heap w)) w' = (Return (repeat PNone n), w'))
  /\ (forall a st et,
        a_kwargs a = kw ->
        resolve_start a = Return st ->
        resolve_end a st = Return et ->
        datetime_gt st et = false ->
        exists w',
          ComcatCatalog_new a w = (Return (List.length (heap w)), w')
          /\ trace w' = trace w
          /\ forall n,
               access n (List.length (heap w)) w'
               = (Return (repeat PNone n), w')).
Proof.
  intros Hc Hz. split.
  - intros new_ Hin.
    assert (Hb : forall c,
               exists w',
                 (self <- new c ;; BaseCatalog_init self kw ;; ret self)%py w
                 = (Return (List.length (heap w)), w')
                 /\ trace w' = trace w
                 /\ forall n,
                      access n (List.length (heap w)) w'
                      = (Return (repeat PNone n), w')).
    { intros c. eexists. split; [|split].
      - unfold bind at 1. unfold new at 1. unfold bind at 1.
        rewrite (BaseCatalog_init_deferred _ kw _ (lookup_new c w) Hc Hz).
        reflexivity.
      - reflexivity.
      - intros n.
        rewrite (access_spec n _ _
                   (lookup_stored_same _ (base_attributes kw) _
                      (lookup_new c w))).
        reflexivity. }
    destruct Hin as [<-|[<-|[<-|[]]]].
    + apply Hb.
    + eexists. split; [|split].
      * unfold CSEPCatalog_new. unfold bind at 1. unfold new at 1.
        unfold bind at 1.
        rewrite (CSEPCatalog_init_none _ kw _ (lookup_new CSEPCatalog w) Hc).
        reflexivity.
      * reflexivity.
      * intros n.
        match goal with
        | |- access _ _ (stored ?r ?f ?x) = _ =>
            rewrite (access_spec n _ _
                       (lookup_stored_same r f x (lookup_new CSEPCatalog w)))
        end.
        reflexivity.
    + apply Hb.
  - intros a st et Hkw Hs He Hgt. eexists. split; [|split].
    + unfold ComcatCatalog_new. unfold bind at 1. unfold new at 1.
      unfold bind at 1.
      rewrite (ComcatCatalog_init_resolved _ _ _ Hs He). cbv zeta.
      rewrite Hgt, Hkw.
      match goal with
      | |- context [BaseCatalog_init ?r kw ?x] =>
          assert (Hl : exists o, lookup x r = Some o)
      end.
      { eexists. repeat apply lookup_stored_same.
        apply (lookup_new ComcatCatalog w). }
      destruct Hl as [o Hl].
      rewrite (BaseCatalog_init_deferred _ kw _ Hl Hc Hz). reflexivity.
    + reflexivity.
    + intros n.
      match goal with
      | |- access _ _ (stored ?r ?f ?x) = _ =>
          assert (Hl : exists o, lookup x r = Some o)
      end.
      { eexists. repeat apply lookup_stored_same.
        apply (lookup_new ComcatCatalog w). }
      destruct Hl as [o Hl].
      rewrite (access_spec n _ _ (lookup_stored_same _ (base_attributes kw) _ Hl)).
      reflexivity.
Qed.

End Construction.

(** ** Big-endian integers *)

Lemma byte_val_byte_of_Z (z : Z) : byte_val (byte_of_Z z) = (z mod 256)%Z.
Proof.
  unfold byte_val, byte_of_Z.
  pose proof (Z.mod_pos_bound z 256 eq_refl) as Hb.
  pose proof (Byte.to_of_N_option_map (Z.to_N (z mod 256))) as H.
  destruct (Byte.of_N (Z.to_N (z mod 256))) as [b|]; simpl in H.
  - destruct (N.leb_spec (Z.to_N (z mod 256)) 255) as [_|Hgt].
    + inversion H as [Hb']. rewrite Hb'. lia.
    + discriminate.
  - destruct (N.leb_spec (Z.to_N (z mod 256)) 255) as [_|Hgt];
      [discriminate|lia].
Qed.

Lemma be_unsigned_snoc (bs : list byte) (b : byte) :
  be_unsigned (bs ++ [b]) = (be_unsigned bs * 256 + byte_val b)%Z.
Proof. unfold be_unsigned. now rewrite fold_left_app. Qed.

Lemma be_encode_length (w : nat) (z : Z) : List.length (be_encode w z) = w.
Proof.
  revert z; induction w as [|w IH]; intros z; simpl; [reflexivity|].
  rewrite length_app, IH. simpl. lia.
Qed.

(** Decoding what was encoded gives the value back, modulo the width. *)
Lemma be_unsigned_be_encode (w : nat) (z : Z) :
  be_unsigned (be_encode w z) = (z mod 256 ^ Z.of_nat w)%Z.
Proof.
  revert z; induction w as [|w IH]; intros z.
  - simpl. now rewrite Z.mod_1_r.
  - cbn [be_encode]. rewrite be_unsigned_snoc, IH, byte_val_byte_of_Z.
    rewrite Nat2Z.inj_succ, Z.pow_succ_r by lia.
    rewrite Z.rem_mul_r by (try apply Z.pow_pos_nonneg; lia). lia.
Qed.

(** A count that fits a signed [int32] is read back as it was written. *)
Lemma decode_int32 (n : Z) :
  (0 <= n < 2 ^ 31)%Z ->
  to_signed 4 (be_unsigned (be_encode 4 n)) = n.
Proof.
  intros Hn. rewrite be_unsigned_be_encode.
  change (256 ^ Z.of_nat 4)%Z with (2 ^ 32)%Z.
  rewrite Z.mod_small by lia. unfold to_signed.
  change (2 ^ (8 * Z.of_nat 4 - 1))%Z with (2 ^ 31)%Z.
  destruct (Z.ltb_spec n (2 ^ 31)); [reflexivity|lia].
Qed.

(** ** Reading the headers *)

(** The 4-byte count at the start of the file. *)
Lemma read_count (n : Z) (rest : list byte) :
  (0 <= n < 2 ^ 31)%Z ->
  exists counts,
    fromfile (be_encode 4 n ++ rest) (plain be_i4) 1 = (counts, rest)
    /\ first_scalar counts = Return n.
Proof.
  intros Hn. eexists. split.
  - rewrite (fromfile_enough _ (plain be_i4) 1).
    + change (itemsize (plain be_i4)) with (List.length (be_encode 4 n)).
      rewrite Nat.mul_1_l, skipn_app_exact. reflexivity.
    + rewrite length_app, be_encode_length. cbn. lia.
    + cbv. lia.
  - change (itemsize (plain be_i4)) with (List.length (be_encode 4 n)).
    cbn [chunks map]. rewrite firstn_app_exact.
    unfold first_scalar, getitem_index. cbn [nth_error arr_rows].
    unfold plain. cbn [decode_row decode_scalar width as_int].
    rewrite firstn_all2 by (rewrite be_encode_length; lia).
    now rewrite decode_int32.
Qed.

(** The 6-byte header of a catalog. *)
Lemma read_header (version : list byte) (n : Z) (rest : list byte) :
  List.length version = 2%nat ->
  (0 <= n < 2 ^ 31)%Z ->
  exists header,
    fromfile (version ++ be_encode 4 n ++ rest) header_dtype 1 = (header, rest)
    /\ header_catalog_size header = Return n.
Proof.
  intros Hv Hn. eexists. split.
  - rewrite (fromfile_enough _ header_dtype 1).
    + rewrite app_assoc.
      replace (1 * itemsize header_dtype)%nat
        with (List.length (version ++ be_encode 4 n))
        by (rewrite length_app, be_encode_length, Hv; reflexivity).
      rewrite skipn_app_exact. reflexivity.
    + rewrite !length_app, be_encode_length, Hv. cbn. lia.
    + cbv. lia.
  - cbn [chunks map].
    replace (itemsize header_dtype)
      with (List.length (version ++ be_encode 4 n))
      by (rewrite length_app, be_encode_length, Hv; reflexivity).
    rewrite firstn_app_exact.
    unfold header_catalog_size, getitem_field, field_lookup, header_dtype.
    cbn [arr_dtype has_fields field_position String.eqb Ascii.eqb Bool.eqb
         option_map fst snd arr_rows map nth decode_row width].
    unfold getitem_index. cbn [nth_error].
    assert (Hsk : skipn 2 (version ++ be_encode 4 n) = be_encode 4 n)
      by (rewrite <- Hv; apply skipn_app_exact).
    rewrite Hsk. cbn [decode_scalar width as_int].
    rewrite firstn_all2 by (rewrite be_encode_length; lia).
    now rewrite decode_int32.
Qed.

(** ** [load_catalogs] *)

Section Loading.
Context {TU : TimeUtils} {RM : Remote}.

Local Open Scope py_scope.

Lemma update_nth_last {A} (f : A -> A) (l : list A) (x : A) :
  update_nth (List.length l) f (l ++ [x]) = l ++ [f x].
Proof. induction l as [|y l IH]; simpl; [reflexivity|]. now rewrite IH. Qed.

Lemma stored_new self f (h : list instance) (x : instance) t :
  self = List.length h ->
  stored self f (mk_world (h ++ [x]) t) = mk_world (h ++ [f x]) t.
Proof. intros ->. unfold stored; simpl. now rewrite update_nth_last. Qed.

(** Calling the class on an array builds the object around it as it is. *)
Lemma UCERF3Catalog_new_array fn a id fmt nm lz w :
  UCERF3Catalog_new (mk_base_kwargs (Some fn) (PArray a) id fmt nm lz) w
  = (Return (List.length (heap w)),
     mk_world
       (heap w
        ++ [mk_instance UCERF3Catalog (Some fn) id fmt nm (PArray a)
              None None None None None None None])
       (trace w)).
Proof.
  unfold UCERF3Catalog_new, UCERF3Catalog_init, BaseCatalog_init.
  unfold bind at 1. unfold new at 1.
  set (self := List.length (heap w)).
  unfold bind at 1.
  repeat (unfold bind at 1; rewrite write_spec).
  rewrite !stored_twice.
  rewrite (stored_new (self := self) _ (heap w) _ _ eq_refl).
  cbn [kw_filename kw_catalog_id kw_format kw_name kw_catalog kw_lazy_load].
  unfold bind at 1.
  match goal with
  | |- context [catalog_setter self (PArray a) ?x] =>
      assert (Hl : exists o, lookup x self = Some o)
        by (eexists; unfold lookup; cbn [heap];
            rewrite nth_error_app2, Nat.sub_diag by (subst self; lia);
            reflexivity)
  end.
  destruct Hl as [o Hl].
  rewrite (catalog_setter_array _ a _ Hl).
  rewrite (stored_new (self := self) _ (heap w) _ _ eq_refl).
  unfold bind at 1.
  match goal with
  | |- context [catalog_getter self ?x] =>
      assert (Hl2 : exists o, lookup x self = Some o /\ _catalog o = PArray a)
        by (eexists; split;
            [unfold lookup; cbn [heap];
             rewrite nth_error_app2, Nat.sub_diag by (subst self; lia);
             reflexivity
            |reflexivity])
  end.
  destruct Hl2 as (o2 & Hl2 & Hc2).
  rewrite (catalog_getter_spec _ _ Hl2), Hc2.
  cbn [is_none]. rewrite andb_false_r. reflexivity.
Qed.

(** One iteration of the loop on a catalog that is whole: the header is
    read, then exactly the announced records, and the catalog is yielded
    with the stream at the start of the next header. *)
Lemma loop_whole fn kw c rest id n w :
  well_formed_catalog c ->
  (id < n)%Z ->
  loop fn kw (serialize_catalog c ++ rest) id n w
  = (Yielded (List.length (heap w)),
     gen_suspended fn kw rest (id + 1) n,
     mk_world (heap w ++ [u3_instance fn kw id (rc_records c)]) (trace w)).
Proof.
  intros (Hv & Hr & Hn) Hid. unfold loop.
  destruct (Z.ltb_spec id n) as [_|]; [|lia].
  unfold serialize_catalog. rewrite <- !app_assoc.
  destruct (@read_header (rc_file_version c)
              (Z.of_nat (List.length (rc_records c)))
              (List.concat (rc_records c) ++ rest) Hv) as (hdr & Hh & Hs);
    [lia|].
  rewrite Hh, Hs.
  rewrite (@fromfile_enough _ event_dtype (List.length (rc_records c)));
    [| rewrite length_app, (concat_length_uniform Hr); lia | cbv; lia].
  rewrite (chunks_concat _ Hr).
  rewrite <- (concat_length_uniform Hr), skipn_app_exact.
  rewrite UCERF3Catalog_new_array. reflexivity.
Qed.

(** A body that stops short: fewer whole records are left in the file
    than the header announces.  Nothing is raised; the catalog is yielded
    with the whole records that are there. *)
Lemma loop_short fn kw version size body id n w :
  List.length version = 2%nat ->
  (0 <= size < 2 ^ 31)%Z ->
  (id < n)%Z ->
  (Z.of_nat (List.length body / itemsize event_dtype) < size)%Z ->
  loop fn kw (version ++ be_encode 4 size ++ body) id n w
  = (Yielded (List.length (heap w)),
     gen_suspended fn kw [] (id + 1) n,
     mk_world
       (heap w
        ++ [u3_instance fn kw id
              (chunks (itemsize event_dtype)
                 (List.length body / itemsize event_dtype) body)])
       (trace w)).
Proof.
  intros Hv Hsz Hid Hshort. unfold loop.
  destruct (Z.ltb_spec id n) as [_|]; [|lia].
  destruct (@read_header version size body Hv Hsz) as (hdr & Hh & Hs).
  rewrite Hh, Hs. rewrite (@fromfile_short body event_dtype size Hshort).
  rewrite UCERF3Catalog_new_array. reflexivity.
Qed.

(** Starting the generator reads the count and enters the loop. *)
Lemma next_created fn kw n rest w :
  (0 <= n < 2 ^ 31)%Z ->
  next (gen_created fn (be_encode 4 n ++ rest) kw) w
  = next (gen_suspended fn kw rest 0 n) w.
Proof.
  intros Hn. unfold next.
  destruct (read_count rest Hn) as (counts & Hc & Hf).
  now rewrite Hc, Hf.
Qed.

(** [k] calls of [next] yield the first [k] catalogs and leave the
    generator suspended before the rest of the file. *)
Lemma drain_prefix fn kw (k : nat) : forall cs id n w,
  Forall well_formed_catalog cs ->
  (k <= List.length cs)%nat ->
  (id + Z.of_nat (List.length cs) <= n)%Z ->
  drain k (gen_suspended fn kw (remaining 0 cs) id n) w
  = (seq (List.length (heap w)) k, Unfinished,
     gen_suspended fn kw (remaining k cs) (id + Z.of_nat k) n,
     mk_world (heap w ++ u3_instances fn kw id (firstn k cs)) (trace w)).
Proof.
  induction k as [|k IH]; intros cs id n w Hwf Hk Hn.
  - cbn [drain seq firstn u3_instances]. rewrite app_nil_r, Z.add_0_r.
    destruct w; reflexivity.
  - destruct cs as [|c cs]; [simpl in Hk; lia|].
    inversion Hwf as [|? ? Hc Hcs]; subst.
    cbn [drain next]. unfold remaining at 1. cbn [skipn map List.concat].
    rewrite (@loop_whole fn kw c (List.concat (map serialize_catalog cs))
               id n w Hc)
      by (simpl List.length in Hn; lia).
    fold (remaining 0 cs).
    rewrite (IH cs (id + 1)%Z n) by (try assumption; simpl in *; lia).
    cbn [heap trace firstn u3_instances seq].
    rewrite length_app, Nat.add_1_r, <- app_assoc. cbn [app].
    unfold remaining. cbn [skipn].
    replace (id + 1 + Z.of_nat k)%Z with (id + Z.of_nat (S k))%Z by lia.
    reflexivity.
Qed.

(** Draining in two stages. *)
Lemma drain_add (k m : nat) : forall g w cs g' w',
  drain k g w = (cs, Unfinished, g', w') ->
  drain (k + m) g w
  = match drain m g' w' with
    | (cs2, e, g'', w'') => (cs ++ cs2, e, g'', w'')
    end.
Proof.
  induction k as [|k IH]; intros g w cs g' w' H.
  - cbn in H. inversion H; subst. cbn [Nat.add app].
    destruct (drain m g' w') as [[[? ?] ?] ?]. reflexivity.
  - cbn [drain Nat.add] in *.
    destruct (next g w) as [[[c| |e] g1] w1]; try discriminate.
    destruct (drain k g1 w1) as [[[cs1 e1] g2] w2] eqn:E.
    inversion H; subst.
    rewrite (IH _ _ _ _ _ E).
    destruct (drain m g' w') as [[[? ?] ?] ?]. reflexivity.
Qed.

Lemma drain_created fn kw cs fuel w :
  (Z.of_nat (List.length cs) < 2 ^ 31)%Z ->
  drain (S fuel) (gen_created fn (serialize cs) kw) w
  = drain (S fuel)
      (gen_suspended fn kw (remaining 0 cs) 0 (Z.of_nat (List.length cs))) w.
Proof.
  intros Hn. cbn [drain]. unfold serialize.
  rewrite next_created by lia. reflexivity.
Qed.

Lemma nth_error_u3_instances fn kw : forall cs id k c,
  nth_error cs k = Some c ->
  nth_error (u3_instances fn kw id cs) k
  = Some (u3_instance fn kw (id + Z.of_nat k) (rc_records c)).
Proof.
  induction cs as [|c0 cs IH]; intros id [|k] c H; simpl in H;
    try discriminate.
  - inversion H; subst. cbn [u3_instances nth_error].
    now rewrite Z.add_0_r.
  - cbn [u3_instances nth_error]. rewrite (IH (id + 1)%Z k c H).
    replace (id + 1 + Z.of_nat k)%Z with (id + Z.of_nat (S k))%Z by lia.
    reflexivity.
Qed.

(** C1.  On the file that lays out the catalogs [cs], each call of [next]
    reads one header and the records it announces and yields one new
    [UCERF3Catalog]: after [k] calls the first [k] catalogs have been built
    and the generator is suspended before the unread rest of the file;
    one call more than there are catalogs ends the iteration.  The
    catalog at position [k] has [catalog_id] [k] and holds the decoded
    records of the [k]-th body, as many as its header announces. *)
Theorem C1_load_catalogs_yields_each_catalog_in_turn
    (fn : string) (kw : base_kwargs) (cs : list raw_catalog) (w : world) :
  well_formed cs ->
  (forall k, (k <= List.length cs)%nat ->
     drain k (gen_created fn (serialize cs) kw) w
     = (seq (List.length (heap w)) k, Unfinished, state_after fn kw cs k,
        mk_world (heap w ++ u3_instances fn kw 0 (firstn k cs)) (trace w)))
  /\ (forall fuel, (List.length cs < fuel)%nat ->
      drain fuel (gen_created fn (serialize cs) kw) w
      = (seq (List.length (heap w)) (List.length cs), Exhausted, gen_finished,
         mk_world (heap w ++ u3_instances fn kw 0 cs) (trace w)))
  /\ (forall k c, nth_error cs k = Some c ->
      let w' := mk_world (heap w ++ u3_instances fn kw 0 cs) (trace w) in
      lookup w' (List.length (heap w) + k)
      = Some (u3_instance fn kw (Z.of_nat k) (rc_records c))
      /\ get_number_of_events (List.length (heap w) + k) w'
         = (Return (List.length (rc_records c)), w')).
Proof.
  intros [Hn Hwf].
  assert (Hpre : forall k, (k <= List.length cs)%nat ->
            drain (S k) (gen_created fn (serialize cs) kw) w
            = drain (S k)
                (gen_suspended fn kw (remaining 0 cs) 0
                   (Z.of_nat (List.length cs))) w)
    by (intros; now apply drain_created).
  repeat split.
  - intros [|k] Hk.
    + cbn [drain seq firstn u3_instances state_after]. rewrite app_nil_r.
      destruct w; reflexivity.
    + rewrite Hpre by lia.
      rewrite (@drain_prefix fn kw (S k) cs 0%Z (Z.of_nat (List.length cs)) w
                 Hwf Hk (Z.le_refl _)).
      reflexivity.
  - intros fuel Hf.
    destruct fuel as [|fuel]; [lia|]. rewrite drain_created by lia.
    replace (S fuel) with (List.length cs + S (fuel - List.length cs))%nat
      by lia.
    rewrite (@drain_add _ (S (fuel - List.length cs)) _ _ _ _ _
               (@drain_prefix fn kw (List.length cs) cs 0%Z
                  (Z.of_nat (List.length cs)) w Hwf (le_n _) (Z.le_refl _))).
    cbn [drain next]. unfold loop. rewrite Z.add_0_l, Z.ltb_irrefl.
    rewrite app_nil_r, firstn_all. reflexivity.
  - unfold lookup. cbn [heap].
    rewrite nth_error_app2 by lia.
    replace (List.length (heap w) + k - List.length (heap w))%nat with k by lia.
    rewrite (@nth_error_u3_instances fn kw cs 0%Z k c H). reflexivity.
  - unfold get_number_of_events, bind.
    erewrite catalog_getter_spec.
    2:{ unfold lookup. cbn [heap]. rewrite nth_error_app2 by lia.
        replace (List.length (heap w) + k - List.length (heap w))%nat
          with k by lia.
        apply (@nth_error_u3_instances fn kw cs 0%Z k c H). }
    cbn. unfold len. cbn. now rewrite length_map.
Qed.

(** C3 (as amended).  When the bytes left after a header hold fewer whole
    records than the header announces, [load_catalogs] raises nothing on
    that catalog: it yields a catalog that holds the whole records that
    are left, fewer than announced, and the stream is at its end. *)
Theorem C3_truncated_body_yields_partial_catalog
    (fn : string) (kw : base_kwargs) (version body : list byte)
    (size id n : Z) (w : world) :
  List.length version = 2%nat ->
  (0 <= size < 2 ^ 31)%Z ->
  (id < n)%Z ->
  (Z.of_nat (List.length body) < size * 70)%Z ->
  let whole := (List.length body / 70)%nat in
  let w' :=
    mk_world (heap w ++ [u3_instance fn kw id (chunks 70 whole body)])
      (trace w) in
  next (gen_suspended fn kw (version ++ be_encode 4 size ++ body) id n) w
  = (Yielded (List.length (heap w)), gen_suspended fn kw [] (id + 1) n, w')
  /\ get_number_of_events (List.length (heap w)) w' = (Return whole, w')
  /\ (Z.of_nat whole < size)%Z.
Proof.
  intros Hv Hsz Hid Htrunc whole w'.
  assert (Hwhole : (Z.of_nat whole < size)%Z).
  { subst whole. pose proof (Nat.div_mod_eq (List.length body) 70) as E.
    pose proof (Nat.mod_upper_bound (List.length body) 70). lia. }
  repeat split.
  - cbn [next]. subst w' whole.
    change 70%nat with (itemsize event_dtype) in *.
    now apply loop_short.
  - unfold get_number_of_events, bind.
    erewrite catalog_getter_spec.
    2:{ subst w'. unfold lookup. cbn [heap].
        rewrite nth_error_app2, Nat.sub_diag by lia. reflexivity. }
    cbn. unfold len. cbn. rewrite length_map, chunks_length. reflexivity.
  - exact Hwhole.
Qed.

End Loading.


(* ===================================================================== *)
(** * Concrete runs *)
(* ===================================================================== *)

(** The runs below are in the concrete setting: datetimes in
    microseconds, decimal literals for [float], and a service that
    returns [sample_events]. *)

Lemma sample_catalogs_well_formed : well_formed sample_catalogs.
Proof. split; [reflexivity|]. repeat constructor. Qed.

(** The file of two catalogs gives the catalogs 0 and 1 and then ends. *)
Lemma C1_two_catalogs_witness :
  drain (RM := fixed_remote sample_events) 3
    (gen_created "ucerf3.bin" (serialize sample_catalogs) default_kwargs)
    empty_world
  = ([0; 1]%nat, Exhausted, gen_finished,
     mk_world (u3_instances "ucerf3.bin" default_kwargs 0 sample_catalogs) []).
Proof.
  exact (proj1 (proj2 (@C1_load_catalogs_yields_each_catalog_in_turn
                         utc_micros (fixed_remote sample_events)
                         "ucerf3.bin" default_kwargs sample_catalogs
                         empty_world sample_catalogs_well_formed))
           3%nat (le_n 3)).
Defined.

(** The catalog that was given the array of counts. *)
Lemma lookup_counts_world_0 :
  lookup counts_world 0
  = Some (set__catalog (PArray sample_counts) (blank CSEPCatalog)).
Proof. reflexivity. Qed.

(** The first sample catalog as it is stored after loading. *)
Lemma lookup_sample_world_0 :
  lookup sample_world 0
  = Some (u3_instance "ucerf3.bin" default_kwargs 0 sample_records).
Proof. reflexivity. Qed.

(** [filter("magnitude >= 4.0")] on the magnitudes 3.0, 4.0, 5.5 keeps the
    rows of 4.0 and 5.5, in that order, in the same object. *)
Lemma C2_magnitude_ge_4_witness :
  filter (BI := decimal_float) 0 "magnitude >= 4.0" sample_world
  = (Return 0%nat,
     stored 0
       (set__catalog
          (PArray
             (mk_ndarray event_dtype
                (map (decode_row event_dtype)
                   [sample_record 2 2000 bits_4_0;
                    sample_record 3 3000 bits_5_5]))))
       sample_world).
Proof.
  exact (@C2_filter_selects_rows_in_place utc_micros decimal_float
           0%nat sample_world _
           (mk_ndarray event_dtype (map (decode_row event_dtype) sample_records))
           "magnitude" ">=" "4.0" op_ge be_f8 7%nat 4%float
           lookup_sample_world_0 eq_refl eq_refl eq_refl eq_refl eq_refl
           eq_refl eq_refl eq_refl).
Defined.

(** [filter("magnitude > 10.0")] on the same catalog leaves no row and
    raises nothing. *)
Lemma filter_magnitude_gt_10 :
  filter (BI := decimal_float) 0 "magnitude > 10.0" sample_world
  = (Return 0%nat,
     stored 0 (set__catalog (PArray (mk_ndarray event_dtype []))) sample_world).
Proof. reflexivity. Qed.

(** C2, counterexample.  The [id] field of a ComCat catalog is in the
    schema, and ordering it against a float raises [TypeError]: the
    record sequence is not replaced and no catalog is returned. *)
Lemma C2_bytes_field_counterexample :
  field_lookup comcat_dtype "id" = Some (bytes_S 256, 0%nat)
  /\ filter (BI := decimal_float) 0 "id > 4.0" comcat_world
     = (Raise TypeError, comcat_world).
Proof. split; reflexivity. Qed.

(** In a file cut inside the third record of a catalog that announces
    three, the third record is dropped without an error. *)
Lemma C3_cut_in_third_record_witness :
  next (RM := fixed_remote sample_events)
    (gen_suspended "ucerf3.bin" default_kwargs
       (be_encode 2 1 ++ be_encode 4 3
          ++ firstn 180 (List.concat sample_records)) 0 1)
    empty_world
  = (Yielded 0%nat, gen_suspended "ucerf3.bin" default_kwargs [] 1 1,
     mk_world
       [u3_instance "ucerf3.bin" default_kwargs 0
          [sample_record 1 1000 bits_3_0; sample_record 2 2000 bits_4_0]] []).
Proof.
  refine (proj1 (@C3_truncated_body_yields_partial_catalog
                   utc_micros (fixed_remote sample_events)
                   "ucerf3.bin" default_kwargs (be_encode 2 1)
                   (firstn 180 (List.concat sample_records)) 3 0 1 empty_world
                   _ _ _ _)).
  - reflexivity.
  - lia.
  - lia.
  - vm_compute. reflexivity.
Defined.

(** C3, counterexample.  [truncated_file] announces one catalog of three
    records and stops 40 bytes into the third.  The iteration ends
    normally, without an error, after yielding a catalog of two records. *)
Lemma C3_truncated_file_counterexample :
  header_catalog_size (fst (fromfile (skipn 4 truncated_file) header_dtype 1))
  = Return 3%Z
  /\ drain (RM := fixed_remote sample_events) 5
       (gen_created "ucerf3.bin" truncated_file default_kwargs) empty_world
     = ([0%nat], Exhausted, gen_finished,
        mk_world
          [u3_instance "ucerf3.bin" default_kwargs 0
             [sample_record 1 1000 bits_3_0; sample_record 2 2000 bits_4_0]]
          [])
  /\ len (mk_ndarray event_dtype
            (map (decode_row event_dtype)
               [sample_record 1 1000 bits_3_0; sample_record 2 2000 bits_4_0]))
     = 2%nat.
Proof. repeat split; vm_compute; reflexivity. Qed.

(** C4, counterexample.  An event record is 70 bytes long, and 68 bytes
    do not hold one. *)
Lemma C4_68_bytes_counterexample :
  itemsize event_dtype = 70%nat
  /\ len (fst (fromfile (firstn 68 (sample_record 1 1000 bits_3_0))
                 event_dtype 1))
     = 0%nat
  /\ len (fst (fromfile (sample_record 1 1000 bits_3_0) event_dtype 1))
     = 1%nat.
Proof. repeat split; vm_compute; reflexivity. Qed.

(** Two records are read from 140 bytes. *)
Lemma C4_two_records_witness :
  len (fst (fromfile (List.concat (firstn 2 sample_records)) event_dtype 2))
  = 2%nat
  /\ (List.length
        (snd (fromfile (List.concat (firstn 2 sample_records)) event_dtype 2))
      + 2 * 70
      = List.length (List.concat (firstn 2 sample_records)))%nat.
Proof.
  refine (proj2 C4_event_record_is_70_bytes
            (List.concat (firstn 2 sample_records)) 2%nat _).
  vm_compute. repeat constructor.
Defined.

(** A [UCERF3Catalog] built without arguments is not loaded, however
    often its record sequence is read. *)
Lemma C5_deferred_ucerf3_witness :
  exists w',
    UCERF3Catalog_new (RM := fixed_remote sample_events) default_kwargs
      empty_world
    = (Return 0%nat, w')
    /\ trace w' = []
    /\ access 3 0 w' = (Return [PNone; PNone; PNone], w').
Proof.
  destruct (proj1 (@C5_deferred_catalog_is_not_loaded_on_access
                     utc_micros (fixed_remote sample_events)
                     default_kwargs empty_world eq_refl eq_refl)
              UCERF3Catalog_new (or_intror (or_intror (or_introl eq_refl))))
    as (w' & H1 & H2 & H3).
  exists w'. split; [exact H1|]. split; [exact H2|]. exact (H3 3%nat).
Defined.

(** C5, counterexample.  A [ComcatCatalog] built in deferred-load mode:
    the first access to its record sequence returns [None], and neither
    the construction nor the access has run [load_catalog] or queried the
    service. *)
Lemma C5_first_access_counterexample :
  ComcatCatalog_new (RM := fixed_remote sample_events) sample_window
    empty_world
  = (Return 0%nat, lazy_comcat_world)
  /\ catalog_getter 0 lazy_comcat_world = (Return PNone, lazy_comcat_world)
  /\ loads (trace lazy_comcat_world) = 0%nat
  /\ searches (trace lazy_comcat_world) = 0%nat.
Proof. repeat split. Qed.

(** Only [end_time] is given; [start_time] is later than [end_time]. *)
Lemma C6_invalid_windows_witness :
  (exists w',
      ComcatCatalog_new (RM := fixed_remote sample_events)
        (@comcat_defaults utc_micros None (Some 1546473600000000%Z) None None)
        empty_world
      = (Raise ValueError, w')
      /\ trace w' = [])
  /\ (exists w',
        ComcatCatalog_new (RM := fixed_remote sample_events)
          (@comcat_defaults utc_micros
             (Some 1546473600000000%Z) (Some 1546300800000000%Z) None None)
          empty_world
        = (Raise ValueError, w')
        /\ trace w' = []).
Proof.
  split.
  - exact (proj1 (@C6_comcat_time_window_validation
                    utc_micros (fixed_remote sample_events)
                    (@comcat_defaults utc_micros None
                       (Some 1546473600000000%Z) None None)
                    empty_world)
             eq_refl eq_refl).
  - exact (proj1 (proj2 (proj2 (@C6_comcat_time_window_validation
                    utc_micros (fixed_remote sample_events)
                    (@comcat_defaults utc_micros
                       (Some 1546473600000000%Z) (Some 1546300800000000%Z)
                       None None)
                    empty_world)))
             1546473600000000%Z 1546300800000000%Z eq_refl eq_refl eq_refl).
Defined.

(** An unknown operator and an unknown field on the sample catalog, and a
    field asked of a catalog whose array has no fields. *)
Lemma C7_unknown_operator_and_field_witness :
  filter (BI := decimal_float) 0 "magnitude != 4.0" sample_world
  = (Raise KeyError, sample_world)
  /\ filter (BI := decimal_float) 0 "mag > 4.0" sample_world
     = (Raise ValueError, sample_world)
  /\ filter (BI := decimal_float) 0 "magnitude > 4.0" counts_world
     = (Raise IndexError, counts_world).
Proof.
  split; [|split].
  - refine (proj1 (@C7_filter_rejects_unknown_operator_and_field
                     utc_micros decimal_float 0%nat sample_world _
                     "magnitude != 4.0" "magnitude" "!=" "4.0"
                     lookup_sample_world_0 eq_refl) _).
    simpl. intuition discriminate.
  - refine (proj1 (proj2 (@C7_filter_rejects_unknown_operator_and_field
                     utc_micros decimal_float 0%nat sample_world _
                     "mag > 4.0" "mag" ">" "4.0"
                     lookup_sample_world_0 eq_refl))
              _ _ eq_refl eq_refl eq_refl).
    simpl. tauto.
  - refine (proj2 (proj2 (@C7_filter_rejects_unknown_operator_and_field
                     utc_micros decimal_float 0%nat counts_world _
                     "magnitude > 4.0" "magnitude" ">" "4.0"
                     lookup_counts_world_0 eq_refl))
              sample_counts _ eq_refl eq_refl).
    simpl. tauto.
Defined.

(** C7, counterexample.  The operator token ["=>"] is outside the table:
    the exception is the [KeyError] of the dictionary lookup, not a
    [ValueError]; and on a catalog without a record sequence a field
    cannot be absent from a schema, the subscript of [None] raises
    [TypeError]. *)
Lemma C7_key_error_counterexample :
  filter (BI := decimal_float) 0 "magnitude => 4.0" sample_world
  = (Raise KeyError, sample_world)
  /\ exn_eqb KeyError ValueError = false
  /\ filter (BI := decimal_float) 0 "mag > 4.0" lazy_comcat_world
     = (Raise TypeError, lazy_comcat_world).
Proof. repeat split. Qed.

(** The first sample catalog has three events. *)
Lemma C8_three_events_witness :
  get_number_of_events 0 sample_world = (Return 3%nat, sample_world)
  /\ get_cumulative_number_of_events 0 sample_world
     = (Return [1; 2; 3]%Z, sample_world).
Proof.
  exact (proj1 (@C8_number_and_cumulative_number_of_events
                  utc_micros 0%nat sample_world _ lookup_sample_world_0)
           (mk_ndarray event_dtype (map (decode_row event_dtype) sample_records))
           eq_refl).
Defined.

(** The object 0 of [lazy_comcat_world] is a [ComcatCatalog]. *)
Lemma lazy_comcat_world_object :
  exists o, lookup lazy_comcat_world 0 = Some o /\ cls o = ComcatCatalog.
Proof. eexists. split; reflexivity. Qed.

(** The same list of events assigned to a [UCERF3Catalog] and to a
    [ComcatCatalog]. *)
Lemma C9_event_list_witness :
  catalog_setter 0 (PEventList sample_events) sample_world
  = (Raise AttributeError,
     stored 0 (set__catalog (PEventList sample_events)) sample_world)
  /\ catalog_setter 0 (PEventList sample_events) lazy_comcat_world
     = (Return tt,
        stored 0
          (set__catalog
             (PArray (mk_ndarray comcat_dtype (map row_of_event sample_events))))
          lazy_comcat_world).
Proof.
  split.
  - refine (proj1 (proj2 (@C9_setter_normalizes_only_comcat
                            utc_micros 0%nat sample_world _ sample_events
                            lookup_sample_world_0)) _).
    discriminate.
  - destruct lazy_comcat_world_object as (o & Hl & Hc).
    exact (proj1 (@C9_setter_normalizes_only_comcat
                    utc_micros 0%nat lazy_comcat_world o sample_events Hl)
             Hc).
Defined.

(** A value that [float] rejects: the catalog is as it was. *)
Lemma C10_unparsable_value_witness :
  fst (filter (BI := decimal_float) 0 "magnitude > abc" sample_world)
  = Raise ValueError
  /\ snd (filter (BI := decimal_float) 0 "magnitude > abc" sample_world)
     = sample_world.
Proof.
  split; [reflexivity|].
  apply (@C10_filter_failure_leaves_catalog utc_micros decimal_float
           0%nat sample_world "magnitude > abc" ValueError).
  reflexivity.
Defined.

(* ===================================================================== *)
(** * Further properties *)
(* ===================================================================== *)

(** ** Decoding is the inverse of the big-endian layout *)

Lemma to_signed_mod (w : nat) (z : Z) :
  (0 < w)%nat ->
  (- 2 ^ (8 * Z.of_nat w - 1) <= z < 2 ^ (8 * Z.of_nat w - 1))%Z ->
  to_signed w (z mod 256 ^ Z.of_nat w) = z.
Proof.
  intros Hw Hz.
  assert (E : (256 ^ Z.of_nat w = 2 * 2 ^ (8 * Z.of_nat w - 1))%Z).
  { change 256%Z with (2 ^ 8)%Z. rewrite <- Z.pow_mul_r by lia.
    rewrite <- Z.pow_succ_r by lia. f_equal. lia. }
  assert (E2 : (2 ^ (8 * Z.of_nat w) = 2 * 2 ^ (8 * Z.of_nat w - 1))%Z).
  { rewrite <- Z.pow_succ_r by lia. f_equal. lia. }
  unfold to_signed. rewrite E, E2.
  set (h := (2 ^ (8 * Z.of_nat w - 1))%Z) in *.
  destruct (Z.ltb_spec z 0) as [Hneg|Hpos].
  - replace (z mod (2 * h))%Z with (z + 2 * h)%Z.
    + destruct (Z.ltb_spec (z + 2 * h) h); lia.
    + apply Z.mod_unique with (q := (-1)%Z); lia.
  - rewrite Z.mod_small by lia.
    destruct (Z.ltb_spec z h); lia.
Qed.

Lemma decode_signed (w : nat) (z : Z) :
  (0 < w)%nat ->
  (- 2 ^ (8 * Z.of_nat w - 1) <= z < 2 ^ (8 * Z.of_nat w - 1))%Z ->
  to_signed w (be_unsigned (be_encode w z)) = z.
Proof. intros. rewrite be_unsigned_be_encode. now apply to_signed_mod. Qed.

Lemma decode_scalar_encode (t : scalar_type) (v : Z) :
  fits t v ->
  decode_scalar t (be_encode (width t) v) = cell_of_value t v.
Proof.
  destruct t; cbn [fits decode_scalar cell_of_value width]; intros Hv;
    try contradiction.
  - now rewrite (decode_signed (w := 2)) by (try exact Hv; lia).
  - now rewrite (decode_signed (w := 4)) by (try exact Hv; lia).
  - now rewrite (decode_signed (w := 8)) by (try exact Hv; lia).
  - rewrite be_unsigned_be_encode.
    change (256 ^ Z.of_nat 8)%Z with (2 ^ 64)%Z.
    now rewrite Z.mod_small by exact Hv.
Qed.

Lemma firstn_app_length {A} (l1 l2 : list A) (n : nat) :
  List.length l1 = n -> firstn n (l1 ++ l2) = l1.
Proof. intros <-. apply firstn_app_exact. Qed.

Lemma skipn_app_length {A} (l1 l2 : list A) (n : nat) :
  List.length l1 = n -> skipn n (l1 ++ l2) = l2.
Proof. intros <-. apply skipn_app_exact. Qed.

(** X1.  Decoding one item of a big-endian numeric dtype from the bytes
    that lay its field values out, most significant byte first and
    negative integers in two's complement, gives the values back, field
    by field, whatever bytes follow. *)
Theorem X1_decode_row_inverts_layout (d : dtype) :
  forall (vals : list Z) (tail : list byte),
  Forall2 fits (map snd d) vals ->
  decode_row d (encode_row d vals ++ tail)
  = map (fun tv => cell_of_value (fst tv) (snd tv)) (combine (map snd d) vals).
Proof.
  induction d as [|[n t] d IH]; intros vals tail H.
  - reflexivity.
  - cbn [map] in H. inversion H as [|? v ? vals' Hv Hvs]; subst.
    cbn [encode_row decode_row map combine fst snd].
    rewrite <- app_assoc.
    rewrite (firstn_app_length _ _ (be_encode_length (width t) v)).
    rewrite (skipn_app_length _ _ (be_encode_length (width t) v)).
    rewrite (decode_scalar_encode t v Hv), (IH vals' tail Hvs).
    reflexivity.
Qed.

(** An event record with a negative identifier and the magnitude 5.5. *)
Lemma X1_negative_identifier_witness :
  decode_row event_dtype
    (encode_row event_dtype
       [-1; 7; 2; 1546300800000; 0; 0; 0; bits_5_5; 0; 4; 5; 6]%Z)
  = [CInt (-1); CInt 7; CInt 2; CInt 1546300800000;
     CFloat 0; CFloat 0; CFloat 0; CFloat 5.5; CFloat 0;
     CInt 4; CInt 5; CInt 6].
Proof.
  rewrite <- (app_nil_r (encode_row event_dtype _)).
  rewrite (@X1_decode_row_inverts_layout event_dtype
             [-1; 7; 2; 1546300800000; 0; 0; 0; bits_5_5; 0; 4; 5; 6]%Z []).
  - reflexivity.
  - cbn [map snd event_dtype].
    repeat first [apply Forall2_nil | apply Forall2_cons];
      unfold fits, bits_5_5; lia.
Defined.

(** ** Filters compose *)

Section Filters.
Context {TU : TimeUtils} {BI : Builtins}.

Local Open Scope py_scope.

Lemma filter_twice {A} (p q : A -> bool) (l : list A) :
  List.filter q (List.filter p l) = List.filter (fun x => p x && q x) l.
Proof.
  induction l as [|x l IH]; simpl; [reflexivity|].
  destruct (p x); simpl; [destruct (q x)|]; now rewrite IH.
Qed.

Lemma filter_length_le {A} (p : A -> bool) (l : list A) :
  (List.length (List.filter p l) <= List.length l)%nat.
Proof.
  induction l as [|x l IH]; simpl; [lia|]. destruct (p x); simpl; lia.
Qed.

(** A filter after a filter, on the object that the first one returns:
    the rows that pass both tests are kept. *)
Lemma filter_then_filter self w o a
    s1 n1 t1 v1 op1 ty1 i1 x1 s2 n2 t2 v2 op2 ty2 i2 x2 :
  lookup w self = Some o ->
  _catalog o = PArray a ->
  split " " s1 = [n1; t1; v1] ->
  dict_get operators t1 = Return op1 ->
  field_lookup (arr_dtype a) n1 = Some (ty1, i1) ->
  numeric ty1 = true ->
  py_float v1 = Some x1 ->
  split " " s2 = [n2; t2; v2] ->
  dict_get operators t2 = Return op2 ->
  field_lookup (arr_dtype a) n2 = Some (ty2, i2) ->
  numeric ty2 = true ->
  py_float v2 = Some x2 ->
  (r <- filter self s1 ;; filter r s2) w
  = (Return self,
     kept self a (fun r => selects op1 i1 x1 r && selects op2 i2 x2 r) w).
Proof.
  intros Hl Ha Hs1 Hop1 Hf1 Hn1 Hv1 Hs2 Hop2 Hf2 Hn2 Hv2.
  unfold bind at 1.
  rewrite (filter_numeric self w s1 Hl Ha Hs1 Hop1 Hf1 Hn1 Hv1).
  match goal with
  | |- filter self s2 (stored self ?f w) = _ =>
      pose proof (lookup_stored_same self f w Hl) as Hl'
  end.
  rewrite (filter_numeric (a := mk_ndarray (arr_dtype a)
                                  (List.filter (selects op1 i1 x1) (arr_rows a)))
             self _ s2 Hl' eq_refl Hs2 Hop2 Hf2 Hn2 Hv2).
  cbn [arr_dtype arr_rows]. rewrite stored_set_twice, filter_twice.
  reflexivity.
Qed.

(** X2.  Filtering twice with the same statement is filtering once: the
    second call returns the same object and leaves the rows that the
    first call kept. *)
Theorem X2_filter_is_idempotent self w o a statement name type value op t i v :
  lookup w self = Some o ->
  _catalog o = PArray a ->
  split " " statement = [name; type; value] ->
  dict_get operators type = Return op ->
  field_lookup (arr_dtype a) name = Some (t, i) ->
  numeric t = true ->
  py_float value = Some v ->
  (r <- filter self statement ;; filter r statement) w
  = filter self statement w.
Proof.
  intros Hl Ha Hs Hop Hf Hn Hv.
  rewrite (@filter_then_filter self w o a statement name type value op t i v
             statement name type value op t i v) by assumption.
  rewrite (filter_numeric self w statement Hl Ha Hs Hop Hf Hn Hv).
  unfold kept. do 5 f_equal. apply filter_ext. intros r.
  now destruct (selects op i v r).
Qed.

(** X3.  Two chained filters give the same catalog in either order: the
    rows that pass both comparisons, in their original order. *)
Theorem X3_chained_filters_commute self w o a
    s1 n1 t1 v1 op1 ty1 i1 x1 s2 n2 t2 v2 op2 ty2 i2 x2 :
  lookup w self = Some o ->
  _catalog o = PArray a ->
  split " " s1 = [n1; t1; v1] ->
  dict_get operators t1 = Return op1 ->
  field_lookup (arr_dtype a) n1 = Some (ty1, i1) ->
  numeric ty1 = true ->
  py_float v1 = Some x1 ->
  split " " s2 = [n2; t2; v2] ->
  dict_get operators t2 = Return op2 ->
  field_lookup (arr_dtype a) n2 = Some (ty2, i2) ->
  numeric ty2 = true ->
  py_float v2 = Some x2 ->
  (r <- filter self s1 ;; filter r s2) w
  = (r <- filter self s2 ;; filter r s1) w
  /\ (r <- filter self s1 ;; filter r s2) w
     = (Return self,
        kept self a (fun r => selects op1 i1 x1 r && selects op2 i2 x2 r) w).
Proof.
  intros Hl Ha Hs1 Hop1 Hf1 Hn1 Hv1 Hs2 Hop2 Hf2 Hn2 Hv2.
  rewrite (@filter_then_filter self w o a s1 n1 t1 v1 op1 ty1 i1 x1
             s2 n2 t2 v2 op2 ty2 i2 x2) by assumption.
  rewrite (@filter_then_filter self w o a s2 n2 t2 v2 op2 ty2 i2 x2
             s1 n1 t1 v1 op1 ty1 i1 x1) by assumption.
  split; [|reflexivity].
  unfold kept. do 5 f_equal. apply filter_ext. intros r. apply andb_comm.
Qed.

(** The mask of a comparison tests each row on its own. *)
Lemma compare_is_rowwise op (a : ndarray) name col v mask :
  getitem_field a name = Return col ->
  compare op col v = Return mask ->
  exists p : row -> bool, mask = map p (arr_rows a).
Proof.
  unfold getitem_field.
  destruct (field_lookup (arr_dtype a) name) as [[t i]|]; [|discriminate].
  intros Hc; inversion Hc; subst col; clear Hc.
  unfold compare. cbn [fst snd]. destruct (numeric t).
  - intros H; inversion H. rewrite map_map. now eexists.
  - destruct op; try discriminate.
    intros H; inversion H. rewrite map_map. now eexists.
Qed.

(** X4.  Whenever [filter] returns, it returns the object it was called
    on, whose record sequence is an array of the same dtype holding some
    of the rows it held before, in their order: never more rows, never a
    new row.  No other object of the store and no other attribute is
    touched, and nothing is loaded or queried. *)
Theorem X4_filter_only_removes_rows self w statement r w' :
  filter self statement w = (Return r, w') ->
  r = self
  /\ exists o a p,
       lookup w self = Some o
       /\ _catalog o = PArray a
       /\ w' = kept self a p w
       /\ (List.length (List.filter p (arr_rows a)) <= len a)%nat
       /\ (forall x, In x (List.filter p (arr_rows a)) -> In x (arr_rows a)).
Proof.
  unfold filter.
  destruct (split " " statement) as [|name [|type [|value [|? ?]]]];
    try (unfold raise; discriminate).
  unfold bind at 1. unfold lift at 1.
  destruct (dict_get operators type) as [op|e1]; [|discriminate].
  unfold bind at 1. unfold catalog_getter at 1. unfold bind at 1, read at 1.
  destruct (lookup w self) as [o|] eqn:Hl; [|discriminate].
  unfold ret at 1.
  unfold bind at 1. unfold lift at 1.
  destruct (_catalog o) as [|a|l|l] eqn:Ha; try discriminate.
  cbn [getitem_name].
  destruct (getitem_field a name) as [col|e1] eqn:Hcol; [|discriminate].
  unfold bind at 1. unfold lift at 1.
  destruct (float_ value) as [v|e1]; [|discriminate].
  unfold bind at 1. unfold lift at 1.
  destruct (compare op col v) as [mask|e1] eqn:Hm; [|discriminate].
  destruct (compare_is_rowwise _ _ _ _ Hcol Hm) as [p ->].
  unfold bind at 1. rewrite (catalog_getter_spec _ _ Hl), Ha.
  unfold bind at 1. unfold lift at 1.
  cbn [getitem_where]. unfold take. rewrite gather_where.
  unfold bind at 1. rewrite (catalog_setter_array _ _ _ Hl).
  unfold ret. intros H. inversion H; subst.
  split; [reflexivity|]. exists o, a, p.
  repeat split; try assumption.
  - apply filter_length_le.
  - intros x Hx. now apply filter_In in Hx.
Qed.

Lemma split_length sep s :
  List.length (split sep s) = S (count_sep sep s).
Proof.
  induction s as [|c s IH]; [reflexivity|]. cbn [split count_sep].
  destruct (Ascii.eqb c sep).
  - cbn [List.length]. now rewrite IH.
  - destruct (split sep s) as [|tok toks]; [discriminate|]. exact IH.
Qed.

(** X5.  A statement that does not hold exactly two spaces makes [filter]
    raise [ValueError], whatever the catalog holds, and the store is
    unchanged: the tokens are cut at every single space, so a doubled
    space or a missing one is an error. *)
Theorem X5_filter_needs_two_spaces self w statement :
  count_sep " " statement <> 2%nat ->
  filter self statement w = (Raise ValueError, w).
Proof.
  intros H. unfold filter.
  pose proof (split_length " " statement) as L.
  destruct (split " " statement) as [|name [|type [|value [|? ?]]]];
    cbn [List.length] in L; try reflexivity.
  congruence.
Qed.

End Filters.

(** ** [load_catalogs] on any file *)

Section AnyFile.
Context {TU : TimeUtils} {RM : Remote}.

Local Open Scope py_scope.

Lemma fromfile_dtype (f : list byte) (dt : dtype) (count : Z) :
  arr_dtype (fst (fromfile f dt count)) = dt.
Proof.
  unfold fromfile. destruct (count <? 0)%Z; [reflexivity|].
  destruct (Z.to_nat count <=? List.length f / itemsize dt)%nat; reflexivity.
Qed.

(** One pass through the loop ends the iteration, or raises, or yields a
    new object; in the first two cases the store is as it was. *)
Lemma loop_cases fn kw f id n w :
  loop fn kw f id n w = (StopIteration, gen_finished, w) /\ (n <= id)%Z
  \/ (exists e, loop fn kw f id n w = (Raised e, gen_finished, w))
  \/ (exists f' o,
        loop fn kw f id n w
        = (Yielded (List.length (heap w)), gen_suspended fn kw f' (id + 1) n,
           mk_world (heap w ++ [o]) (trace w))
        /\ is_loaded fn id o /\ (id < n)%Z).
Proof.
  unfold loop. destruct (Z.ltb_spec id n) as [Hlt|Hge]; [|left; now split].
  right. destruct (fromfile f header_dtype 1) as [header file1].
  destruct (header_catalog_size header) as [size|e]; [|left; now exists e].
  pose proof (fromfile_dtype file1 event_dtype size) as Hd.
  destruct (fromfile file1 event_dtype size) as [[d rows] file2].
  cbn [fst arr_dtype] in Hd. subst d.
  rewrite UCERF3Catalog_new_array. right. do 2 eexists.
  split; [reflexivity|]. split; [|exact Hlt].
  repeat split. now exists rows.
Qed.

Ltac nothing_new :=
  exists []; rewrite app_nil_r;
  split; [reflexivity|]; split; [reflexivity|];
  let Hk := fresh in intros [|?] ? Hk; discriminate Hk.

(** The invariant of the iteration, from a suspended generator. *)
Lemma drain_suspended_invariant fn kw (fuel : nat) :
  forall f id n w cs e g' w',
  drain fuel (gen_suspended fn kw f id n) w = (cs, e, g', w') ->
  trace w' = trace w
  /\ cs = seq (List.length (heap w)) (List.length cs)
  /\ (Z.of_nat (List.length cs) <= Z.max 0 (n - id))%Z
  /\ exists new,
       heap w' = heap w ++ new
       /\ List.length new = List.length cs
       /\ forall k o, nth_error new k = Some o ->
                      is_loaded fn (id + Z.of_nat k) o.
Proof.
  induction fuel as [|fuel IH]; intros f id n w cs e g' w' H.
  - cbn in H. inversion H; subst.
    split; [reflexivity|]. split; [reflexivity|]. split; [cbn; lia|].
    nothing_new.
  - cbn [drain next] in H.
    destruct (loop_cases fn kw f id n w)
      as [[E Hn]|[[e0 E]|(f' & o & E & Ho & Hn)]]; rewrite E in H.
    + inversion H; subst.
      split; [reflexivity|]. split; [reflexivity|]. split; [cbn; lia|].
      nothing_new.
    + inversion H; subst.
      split; [reflexivity|]. split; [reflexivity|]. split; [cbn; lia|].
      nothing_new.
    + destruct (drain fuel (gen_suspended fn kw f' (id + 1) n)
                  (mk_world (heap w ++ [o]) (trace w)))
        as [[[cs1 e1] g1] w1] eqn:E1.
      inversion H; subst.
      destruct (IH _ _ _ _ _ _ _ _ E1) as (Ht & Hcs & Hb & new & Hh & Hl & Hk).
      cbn [heap trace] in *. rewrite length_app in Hcs. cbn in Hcs.
      split; [exact Ht|]. split; [|split].
      * cbn [List.length seq]. f_equal.
        rewrite Nat.add_1_r in Hcs. exact Hcs.
      * cbn [List.length]. lia.
      * exists (o :: new). split; [|split].
        -- rewrite Hh, <- app_assoc. reflexivity.
        -- cbn. now rewrite Hl.
        -- intros [|k] o' Hk'; cbn in Hk'.
           ++ inversion Hk'; subst. now rewrite Z.add_0_r.
           ++ replace (id + Z.of_nat (S k))%Z with (id + 1 + Z.of_nat k)%Z
                by lia.
              now apply Hk.
Qed.

(** X6.  Whatever bytes the file holds, well formed or not, a run of
    [load_catalogs] only adds objects to the store: the references it
    yields are the new ones, in order, each a [UCERF3Catalog] with the
    name of the file, its position as [catalog_id] and an array of event
    records; the objects that were there are untouched and nothing is
    loaded or queried. *)
Theorem X6_load_catalogs_only_adds_numbered_catalogs
    fn content kw (fuel : nat) w cs e g' w' :
  drain fuel (gen_created fn content kw) w = (cs, e, g', w') ->
  trace w' = trace w
  /\ cs = seq (List.length (heap w)) (List.length cs)
  /\ exists new,
       heap w' = heap w ++ new
       /\ List.length new = List.length cs
       /\ forall k o, nth_error new k = Some o -> is_loaded fn (Z.of_nat k) o.
Proof.
  destruct fuel as [|fuel]; intros H.
  - cbn in H. inversion H; subst.
    split; [reflexivity|]. split; [reflexivity|]. nothing_new.
  - assert (E : (exists e0, next (gen_created fn content kw) w
                            = (Raised e0, gen_finished, w))
                \/ exists f n, next (gen_created fn content kw) w
                               = next (gen_suspended fn kw f 0 n) w).
    { cbn [next]. destruct (fromfile content (plain be_i4) 1) as [c f0].
      destruct (first_scalar c) as [n|e0]; [right|left]; eauto. }
    destruct E as [[e0 E]|(f & n & E)].
    + cbn [drain] in H. rewrite E in H. inversion H; subst.
      split; [reflexivity|]. split; [reflexivity|]. nothing_new.
    + assert (H' : drain (S fuel) (gen_suspended fn kw f 0 n) w
                   = (cs, e, g', w')).
      { cbn [drain] in *. now rewrite <- E. }
      destruct (@drain_suspended_invariant fn kw _ _ _ _ _ _ _ _ _ H')
        as (Ht & Hcs & _ & new & Hh & Hl & Hk).
      split; [exact Ht|]. split; [exact Hcs|].
      exists new. split; [exact Hh|]. split; [exact Hl|]. exact Hk.
Qed.

(** The count at the start of the file is a signed [int32]. *)
Lemma read_count_signed (n : Z) (rest : list byte) :
  (- 2 ^ 31 <= n < 2 ^ 31)%Z ->
  exists counts,
    fromfile (be_encode 4 n ++ rest) (plain be_i4) 1 = (counts, rest)
    /\ first_scalar counts = Return n.
Proof.
  intros Hn. eexists. split.
  - rewrite (fromfile_enough _ (plain be_i4) 1).
    + change (itemsize (plain be_i4)) with 4%nat.
      rewrite Nat.mul_1_l, (skipn_app_length _ _ (be_encode_length 4 n)).
      reflexivity.
    + rewrite length_app, be_encode_length. cbn. lia.
    + cbv. lia.
  - change (itemsize (plain be_i4)) with 4%nat.
    cbn [chunks map]. rewrite (firstn_app_length _ _ (be_encode_length 4 n)).
    unfold first_scalar, getitem_index. cbn [nth_error arr_rows].
    unfold plain. cbn [decode_row decode_scalar width as_int].
    rewrite firstn_all2 by (rewrite be_encode_length; lia).
    now rewrite (decode_signed (w := 4)) by (try exact Hn; lia).
Qed.

(** X7.  The count at the start of the file bounds the iteration: never
    more catalogs are yielded than it announces, whatever follows it, and
    a count that is zero or negative ends the iteration at the first call
    without reading further. *)
Theorem X7_count_bounds_the_iteration
    fn kw (n : Z) (rest : list byte) (fuel : nat) w cs e g' w' :
  (- 2 ^ 31 <= n < 2 ^ 31)%Z ->
  drain fuel (gen_created fn (be_encode 4 n ++ rest) kw) w = (cs, e, g', w') ->
  (Z.of_nat (List.length cs) <= Z.max 0 n)%Z
  /\ ((n <= 0)%Z -> (0 < fuel)%nat ->
      (cs, e, g', w') = ([], Exhausted, gen_finished, w)).
Proof.
  intros Hn H. destruct fuel as [|fuel].
  - cbn in H. inversion H; subst. split; [cbn; lia|lia].
  - assert (H' : drain (S fuel) (gen_suspended fn kw rest 0 n) w
                 = (cs, e, g', w')).
    { cbn [drain] in *.
      destruct (read_count_signed rest Hn) as (counts & Hc & Hf).
      cbn [next] in H. rewrite Hc, Hf in H. exact H. }
    split.
    + destruct (@drain_suspended_invariant fn kw _ _ _ _ _ _ _ _ _ H')
        as (_ & _ & Hb & _).
      now rewrite Z.sub_0_r in Hb.
    + intros Hle _. cbn [drain next] in H'. unfold loop in H'.
      destruct (Z.ltb_spec 0 n) as [|_]; [lia|]. now inversion H'.
Qed.

(** X8.  A file that stops inside a count or a header makes the call that
    reads it raise [IndexError] and finishes the generator: less than
    four bytes at the first call, or less than six bytes before a catalog
    that the count still announces.  The store is as it was. *)
Theorem X8_missing_header_raises_index_error fn kw w :
  (forall content,
      (List.length content < 4)%nat ->
      next (gen_created fn content kw) w = (Raised IndexError, gen_finished, w))
  /\ (forall f id n,
        (List.length f < 6)%nat -> (id < n)%Z ->
        next (gen_suspended fn kw f id n) w
        = (Raised IndexError, gen_finished, w)).
Proof.
  split.
  - intros content Hlen. cbn [next].
    rewrite (@fromfile_short content (plain be_i4) 1).
    + change (itemsize (plain be_i4)) with 4%nat.
      rewrite (Nat.div_small _ 4) by lia. reflexivity.
    + change (itemsize (plain be_i4)) with 4%nat.
      rewrite (Nat.div_small _ 4) by lia. reflexivity.
  - intros f id n Hlen Hid. cbn [next]. unfold loop.
    destruct (Z.ltb_spec id n) as [_|]; [|lia].
    rewrite (@fromfile_short f header_dtype 1).
    + change (itemsize header_dtype) with 6%nat.
      rewrite (Nat.div_small _ 6) by lia. reflexivity.
    + change (itemsize header_dtype) with 6%nat.
      rewrite (Nat.div_small _ 6) by lia. reflexivity.
Qed.

End AnyFile.

(** ** Loading *)

Section Loaders.
Context {TU : TimeUtils} {RM : Remote}.

Local Open Scope py_scope.

Lemma lookup_emitted (w : world) (t : list event) self :
  lookup (mk_world (heap w) t) self = lookup w self.
Proof. reflexivity. Qed.

(** The two outcomes of the loader of [ComcatCatalog]. *)
Lemma load_catalog_comcat self w o q :
  lookup w self = Some o ->
  cls o = ComcatCatalog ->
  query_of o = Some q ->
  (forall l, search q = Return l ->
     load_catalog self w
     = (Return self,
        mk_world
          (update_nth self
             (set__catalog
                (PArray (mk_ndarray comcat_dtype (map row_of_event l))))
             (heap w))
          (trace w ++ [call_load_catalog self; call_search q])))
  /\ (forall e, search q = Raise e ->
      load_catalog self w
      = (Raise e,
         mk_world (heap w)
           (trace w ++ [call_load_catalog self; call_search q]))).
Proof.
  intros Hl Hc Hq.
  assert (E : load_catalog self w
              = (eventlist <- lift (search q) ;;
                 catalog_setter self (PEventList eventlist) ;; ret self)
                  (mk_world (heap w)
                     (trace w ++ [call_load_catalog self; call_search q]))).
  { unfold load_catalog. unfold bind at 1. rewrite (read_spec _ _ Hl), Hc.
    unfold ComcatCatalog_load_catalog.
    unfold bind at 1. unfold emit at 1, modify at 1.
    unfold bind at 1.
    rewrite (read_spec self (mk_world (heap w) _) (o := o)) by exact Hl.
    unfold query_of in Hq.
    destruct (min_magnitude o), (min_latitude o), (max_latitude o),
      (min_longitude o), (max_longitude o), (start_time o), (end_time o);
      try discriminate.
    inversion Hq; subst q; clear Hq.
    unfold attr. unfold bind at 1 2 3 4 5 6 7. unfold ret at 1 2 3 4 5 6 7.
    unfold bind at 1. unfold emit at 1, modify at 1.
    cbn [heap trace]. rewrite <- app_assoc. reflexivity. }
  split.
  - intros l Hs. rewrite E. unfold bind at 1. unfold lift at 1. rewrite Hs.
    unfold bind at 1.
    rewrite (catalog_setter_events_comcat self l
               (mk_world (heap w) _) (o := o)) by assumption.
    reflexivity.
  - intros e Hs. rewrite E. unfold bind at 1. unfold lift at 1. now rewrite Hs.
Qed.

(** X9.  [load_catalog] on a [ComcatCatalog] sends exactly one query, the
    one made of the region and the window of the object.  When the service
    answers, the record sequence becomes the array with one converted row
    per event, in the order of the answer, and the object itself is
    returned; when the service fails, its error is raised and the record
    sequence is what it was. *)
Theorem X9_comcat_load_catalog_queries_once self w o q :
  lookup w self = Some o ->
  cls o = ComcatCatalog ->
  query_of o = Some q ->
  (forall l, search q = Return l ->
     load_catalog self w
     = (Return self,
        mk_world
          (update_nth self
             (set__catalog
                (PArray (mk_ndarray comcat_dtype (map row_of_event l))))
             (heap w))
          (trace w ++ [call_load_catalog self; call_search q])))
  /\ (forall e, search q = Raise e ->
      load_catalog self w
      = (Raise e,
         mk_world (heap w)
           (trace w ++ [call_load_catalog self; call_search q]))).
Proof. apply load_catalog_comcat. Qed.

(** X10.  A [BaseCatalog] or a [UCERF3Catalog] cannot be built in eager
    mode without a record sequence: neither class has a loader of its
    own, so the constructor runs the one of the base class once and
    raises [NotImplementedError]. *)
Theorem X10_eager_construction_without_loader
    (kw : base_kwargs) (w : world) :
  kw_catalog kw = PNone ->
  kw_lazy_load kw = false ->
  forall new_, In new_ [BaseCatalog_new; UCERF3Catalog_new] ->
  exists w',
    new_ kw w = (Raise NotImplementedError, w')
    /\ trace w' = trace w ++ [call_load_catalog (List.length (heap w))]
    /\ loads (trace w') = S (loads (trace w)).
Proof.
  intros Hc Hz new_ Hin.
  assert (Hb : forall c, c <> ComcatCatalog ->
             exists w',
               (self <- new c ;; BaseCatalog_init self kw ;; ret self)%py w
               = (Raise NotImplementedError, w')
               /\ trace w' = trace w ++ [call_load_catalog (List.length (heap w))]
               /\ loads (trace w') = S (loads (trace w))).
  { intros c Hne. eexists. split; [|split].
    - unfold bind at 1. unfold new at 1. unfold bind at 1.
      unfold BaseCatalog_init.
      repeat (unfold bind at 1; rewrite write_spec).
      rewrite !stored_twice.
      match goal with
      | |- context [stored ?r ?f ?x] =>
          pose proof (lookup_stored_same r f x (lookup_new c w)) as H1
      end.
      unfold bind at 1. rewrite Hc, (catalog_setter_none _ _ H1), stored_twice.
      match goal with
      | |- context [stored ?r ?f ?x] =>
          pose proof (lookup_stored_same r f x (lookup_new c w)) as H2
      end.
      unfold bind at 1. rewrite (catalog_getter_spec _ _ H2), Hz.
      cbn [negb andb _catalog set__catalog is_none].
      unfold bind at 1. unfold load_catalog. unfold bind at 1.
      rewrite (read_spec _ _ H2). cbn [cls set__catalog set_name set_format
        set_catalog_id set_filename blank].
      destruct c; try congruence; reflexivity.
    - destruct c; try congruence; reflexivity.
    - destruct c; try congruence; cbn [trace];
        unfold loads; rewrite filter_app, length_app; cbn; lia. }
  destruct Hin as [<-|[<-|[]]]; apply Hb; discriminate.
Qed.

(** X11.  [CSEPCatalog] ignores [lazy_load]: built without a record
    sequence it runs no loader in either mode, and its record sequence is
    [None]. *)
Theorem X11_csep_never_loads (kw : base_kwargs) (w : world) :
  kw_catalog kw = PNone ->
  exists w' o,
    CSEPCatalog_new kw w = (Return (List.length (heap w)), w')
    /\ trace w' = trace w
    /\ lookup w' (List.length (heap w)) = Some o
    /\ _catalog o = PNone.
Proof.
  intros Hc. do 2 eexists. split; [|split; [|split]].
  - unfold CSEPCatalog_new. unfold bind at 1. unfold new at 1.
    unfold bind at 1.
    rewrite (CSEPCatalog_init_none _ kw _ (lookup_new CSEPCatalog w) Hc).
    reflexivity.
  - reflexivity.
  - apply lookup_stored_same. apply lookup_new.
  - reflexivity.
Qed.

(** X12.  Building a [ComcatCatalog] in eager mode, with a window that
    resolves and a service that answers, sends exactly one query, for the
    region and the resolved window, and the record sequence of the new
    object is the array with one converted row per event.  Its
    [catalog_id] is the one that the base constructor assigns from the
    remaining keyword arguments, not the [catalog_id] argument. *)
Theorem X12_eager_comcat_construction (a : comcat_args) (w : world) st et l :
  kw_catalog (a_kwargs a) = PNone ->
  kw_lazy_load (a_kwargs a) = false ->
  resolve_start a = Return st ->
  resolve_end a st = Return et ->
  datetime_gt st et = false ->
  search (mk_query (a_min_magnitude a) (a_min_latitude a) (a_max_latitude a)
            (a_min_longitude a) (a_max_longitude a) st et) = Return l ->
  exists w',
    ComcatCatalog_new a w = (Return (List.length (heap w)), w')
    /\ trace w'
       = trace w
         ++ [call_load_catalog (List.length (heap w));
             call_search
               (mk_query (a_min_magnitude a) (a_min_latitude a)
                  (a_max_latitude a) (a_min_longitude a) (a_max_longitude a)
                  st et)]
    /\ lookup w' (List.length (heap w))
       = Some (set__catalog
                 (PArray (mk_ndarray comcat_dtype (map row_of_event l)))
                 (base_attributes (a_kwargs a) (comcat_attributes a st et))).
Proof.
  intros Hc Hz Hs He Hgt Hq.
  set (h := List.length (heap w)).
  set (q := mk_query _ _ _ _ _ st et) in *.
  assert (E : ComcatCatalog_new a w
              = (self <- ret h ;;
                 (load_catalog self ;; ret tt) ;; ret self)
                  (mk_world
                     (heap w
                      ++ [base_attributes (a_kwargs a)
                            (comcat_attributes a st et)])
                     (trace w))).
  { unfold ComcatCatalog_new. unfold bind at 1. unfold new at 1.
    unfold bind at 1.
    rewrite (ComcatCatalog_init_resolved _ _ _ Hs He). cbv zeta.
    rewrite Hgt. fold h. rewrite !stored_twice.
    rewrite (stored_new (self := h) _ (heap w) _ _ eq_refl).
    unfold BaseCatalog_init.
    repeat (unfold bind at 1; rewrite write_spec).
    rewrite !stored_twice.
    rewrite (stored_new (self := h) _ (heap w) _ _ eq_refl).
    unfold bind at 1. rewrite Hc.
    erewrite catalog_setter_none
      by (unfold lookup; cbn [heap];
          rewrite nth_error_app2, Nat.sub_diag by (subst h; lia);
          reflexivity).
    rewrite (stored_new (self := h) _ (heap w) _ _ eq_refl).
    unfold bind at 1.
    erewrite catalog_getter_spec
      by (unfold lookup; cbn [heap];
          rewrite nth_error_app2, Nat.sub_diag by (subst h; lia);
          reflexivity).
    rewrite Hz. cbn [negb andb _catalog set__catalog is_none].
    reflexivity. }
  match type of E with
  | _ = _ ?w5 =>
      assert (Hl : lookup w5 h
                   = Some (base_attributes (a_kwargs a)
                             (comcat_attributes a st et)))
        by (unfold lookup; cbn [heap];
            rewrite nth_error_app2, Nat.sub_diag by (subst h; lia);
            reflexivity);
      pose proof (proj1 (@load_catalog_comcat h w5 _ q Hl eq_refl eq_refl)
                    l Hq) as Hload
  end.
  eexists. split; [|split].
  - rewrite E. unfold bind at 1. unfold ret at 1.
    unfold bind at 1. unfold bind at 1. rewrite Hload. reflexivity.
  - reflexivity.
  - unfold lookup. cbn [heap]. subst h.
    rewrite update_nth_last, nth_error_app2, Nat.sub_diag by lia.
    reflexivity.
Qed.

(** X13.  In deferred-load mode the new [ComcatCatalog] holds the region,
    the resolved window and no record sequence, and nothing has been
    queried.  Its [catalog_id] is the one of the remaining keyword
    arguments: the [catalog_id] argument of the class, whose default is
    ['Comcat'], is overwritten by the base constructor. *)
Theorem X13_deferred_comcat_construction (a : comcat_args) (w : world) st et :
  kw_catalog (a_kwargs a) = PNone ->
  kw_lazy_load (a_kwargs a) = true ->
  resolve_start a = Return st ->
  resolve_end a st = Return et ->
  datetime_gt st et = false ->
  ComcatCatalog_new a w
  = (Return (List.length (heap w)),
     mk_world
       (heap w ++ [base_attributes (a_kwargs a) (comcat_attributes a st et)])
       (trace w))
  /\ catalog_id (base_attributes (a_kwargs a) (comcat_attributes a st et))
     = kw_catalog_id (a_kwargs a)
  /\ query_of (base_attributes (a_kwargs a) (comcat_attributes a st et))
     = Some (mk_query (a_min_magnitude a) (a_min_latitude a)
               (a_max_latitude a) (a_min_longitude a) (a_max_longitude a)
               st et).
Proof.
  intros Hc Hz Hs He Hgt. split; [|split; reflexivity].
  unfold ComcatCatalog_new. unfold bind at 1. unfold new at 1.
  unfold bind at 1.
  rewrite (ComcatCatalog_init_resolved _ _ _ Hs He). cbv zeta.
  rewrite Hgt. rewrite !stored_twice.
  rewrite (stored_new _ (heap w) _ _ eq_refl).
  erewrite BaseCatalog_init_deferred; try eassumption.
  2:{ unfold lookup; cbn [heap].
      rewrite nth_error_app2, Nat.sub_diag by lia. reflexivity. }
  rewrite (stored_new _ (heap w) _ _ eq_refl). reflexivity.
Qed.

End Loaders.

(** ** Accessors *)

Section Accessors.
Context {TU : TimeUtils} {BI : Builtins} {RM : Remote}.

Local Open Scope py_scope.

Lemma map_filter_commute {A B} (f : A -> B) (p : B -> bool) (l : list A) :
  map f (List.filter (fun x => p (f x)) l) = List.filter p (map f l).
Proof.
  induction l as [|x l IH]; simpl; [reflexivity|].
  destruct (p (f x)); simpl; now rewrite IH.
Qed.

(** X14.  After [filter] on the field [magnitude], [get_magnitudes] on
    the returned catalog gives the magnitudes that pass the comparison, in
    their original order, and only those. *)
Theorem X14_magnitudes_after_filter
    self w o a statement type value op t i v :
  lookup w self = Some o ->
  cls o = CSEPCatalog \/ cls o = UCERF3Catalog ->
  _catalog o = PArray a ->
  split " " statement = ["magnitude"%string; type; value] ->
  dict_get operators type = Return op ->
  field_lookup (arr_dtype a) "magnitude" = Some (t, i) ->
  numeric t = true ->
  py_float value = Some v ->
  let before := map (fun r => nth i r (CInt 0)) (arr_rows a) in
  let after := List.filter (fun c => compare_cell op c v) before in
  (r <- filter self statement ;; get_magnitudes r) w
  = (Return after, kept self a (selects op i v) w)
  /\ Forall (fun c => compare_cell op c v = true) after.
Proof.
  intros Hl Hcls Ha Hs Hop Hf Hn Hv before after. split.
  - unfold bind at 1.
    rewrite (filter_numeric self w statement Hl Ha Hs Hop Hf Hn Hv).
    fold (kept self a (selects op i v) w).
    assert (Hl' : lookup (kept self a (selects op i v) w) self
                  = Some (set__catalog
                            (PArray (mk_ndarray (arr_dtype a)
                                       (List.filter (selects op i v)
                                          (arr_rows a)))) o))
      by (apply lookup_stored_same; exact Hl).
    unfold get_magnitudes. unfold bind at 1. rewrite (read_spec _ _ Hl').
    cbn [cls set__catalog].
    assert (Hcol : column_get_magnitudes self (kept self a (selects op i v) w)
                   = (Return after, kept self a (selects op i v) w)).
    { unfold column_get_magnitudes. unfold bind at 1.
      rewrite (catalog_getter_spec _ _ Hl'). cbn [_catalog set__catalog].
      unfold bind at 1. unfold lift at 1. cbn [getitem_name].
      unfold getitem_field. cbn [arr_dtype arr_rows]. rewrite Hf.
      unfold ret. cbn [snd]. subst after before. unfold selects.
      now rewrite <- map_filter_commute. }
    destruct Hcls as [-> | ->]; exact Hcol.
  - subst after. apply Forall_forall. intros c Hc.
    now apply filter_In in Hc.
Qed.

(** X15.  [UCERF3Catalog.get_datetimes] returns one datetime per event, in
    the order of the rows: the conversion of each [origin_time]. *)
Theorem X15_datetimes_follow_origin_times self w o a t zs :
  lookup w self = Some o ->
  _catalog o = PArray a ->
  getitem_field a "origin_time" = Return (t, map CInt zs) ->
  UCERF3Catalog_get_datetimes self w
  = (Return (map epoch_time_to_utc_datetime zs), w)
  /\ List.length zs = len a.
Proof.
  intros Hl Ha Hcol.
  unfold getitem_field in Hcol.
  destruct (field_lookup (arr_dtype a) "origin_time") as [[t' i]|] eqn:Hf;
    [|discriminate].
  inversion Hcol as [[Ht Hz]]; subst t'. clear Hcol.
  split.
  - unfold UCERF3Catalog_get_datetimes. unfold bind at 1.
    rewrite (catalog_getter_spec _ _ Hl), Ha. unfold lift. f_equal.
    revert zs Hz. induction (arr_rows a) as [|r rows IH]; intros zs Hz.
    + destruct zs; [reflexivity|discriminate].
    + destruct zs as [|z zs]; [discriminate|]. cbn [map] in Hz.
      inversion Hz as [[Hr Hrs]].
      cbn [rows_to_datetimes map]. unfold row_getitem. rewrite Hf, Hr.
      cbn [as_int]. now rewrite (IH zs Hrs).
  - unfold len. rewrite <- (length_map CInt zs), <- Hz. apply length_map.
Qed.

Lemma rows_getitem_events (l : list ComcatEvent) :
  rows_getitem comcat_dtype (map row_of_event l) "magnitude"
  = Return (map (fun e => CFloat32 (to_float32 (ev_magnitude e))) l).
Proof.
  induction l as [|e l IH]; [reflexivity|].
  cbn [map rows_getitem]. rewrite IH. reflexivity.
Qed.

(** X16.  After [load_catalog] on a [ComcatCatalog], [get_magnitudes]
    returns the magnitudes of the events that the service answered, each
    rounded to single precision, in the order of the answer. *)
Theorem X16_comcat_magnitudes_after_load self w o q l :
  lookup w self = Some o ->
  cls o = ComcatCatalog ->
  query_of o = Some q ->
  search q = Return l ->
  exists w',
    (r <- load_catalog self ;; get_magnitudes r) w
    = (Return (map (fun e => CFloat32 (to_float32 (ev_magnitude e))) l), w').
Proof.
  intros Hl Hc Hq Hs. eexists.
  unfold bind at 1.
  rewrite (proj1 (@load_catalog_comcat _ _ self w o q Hl Hc Hq) l Hs).
  match goal with
  | |- get_magnitudes self ?w1 = _ =>
      assert (Hl' : lookup w1 self
                    = Some (set__catalog
                              (PArray (mk_ndarray comcat_dtype
                                         (map row_of_event l))) o))
        by (apply (nth_error_update_nth_same _ _ _ Hl))
  end.
  unfold get_magnitudes. unfold bind at 1. rewrite (read_spec _ _ Hl').
  cbn [cls set__catalog]. rewrite Hc.
  unfold ComcatCatalog_get_magnitudes. unfold bind at 1.
  rewrite (catalog_getter_spec _ _ Hl'). cbn [_catalog set__catalog].
  unfold lift. cbn [arr_dtype arr_rows]. rewrite rows_getitem_events.
  reflexivity.
Qed.

(** X17.  [ComcatCatalog.get_dataframe] reads the attributes of event
    objects from [_catalog], but [load_catalog] assigns the answer through
    the setter, which replaces the events by array rows: once a non-empty
    answer has been loaded, the method raises [AttributeError]. *)
Theorem X17_comcat_dataframe_fails_after_load self w o q e l :
  lookup w self = Some o ->
  cls o = ComcatCatalog ->
  query_of o = Some q ->
  search q = Return (e :: l) ->
  exists w',
    (r <- load_catalog self ;; ComcatCatalog_get_dataframe r) w
    = (Raise AttributeError, w').
Proof.
  intros Hl Hc Hq Hs. eexists.
  unfold bind at 1.
  rewrite (proj1 (@load_catalog_comcat _ _ self w o q Hl Hc Hq) (e :: l) Hs).
  match goal with
  | |- ComcatCatalog_get_dataframe self ?w1 = _ =>
      assert (Hl' : lookup w1 self
                    = Some (set__catalog
                              (PArray (mk_ndarray comcat_dtype
                                         (map row_of_event (e :: l)))) o))
        by (apply (nth_error_update_nth_same _ _ _ Hl))
  end.
  unfold ComcatCatalog_get_dataframe. unfold bind at 1.
  rewrite (read_spec _ _ Hl'). reflexivity.
Qed.


End Accessors.

(* ===================================================================== *)
(** * Further concrete runs *)
(* ===================================================================== *)

Lemma lookup_lazy_comcat_world_0 :
  lookup lazy_comcat_world 0 = Some lazy_comcat_instance.
Proof. reflexivity. Qed.

Lemma X2_filter_twice_witness :
  (r <- filter (BI := decimal_float) 0 "magnitude >= 4.0" ;;
   filter (BI := decimal_float) r "magnitude >= 4.0")%py sample_world
  = filter (BI := decimal_float) 0 "magnitude >= 4.0" sample_world.
Proof.
  exact (@X2_filter_is_idempotent utc_micros decimal_float
           0%nat sample_world _
           (mk_ndarray event_dtype (map (decode_row event_dtype) sample_records))
           "magnitude >= 4.0" "magnitude" ">=" "4.0" op_ge be_f8 7%nat 4%float
           lookup_sample_world_0 eq_refl eq_refl eq_refl eq_refl eq_refl
           eq_refl).
Defined.

Lemma X3_two_filters_witness :
  (r <- filter (BI := decimal_float) 0 "magnitude >= 4.0" ;;
   filter (BI := decimal_float) r "rupture_id < 3")%py sample_world
  = (r <- filter (BI := decimal_float) 0 "rupture_id < 3" ;;
     filter (BI := decimal_float) r "magnitude >= 4.0")%py sample_world.
Proof.
  exact (proj1 (@X3_chained_filters_commute utc_micros decimal_float
           0%nat sample_world _
           (mk_ndarray event_dtype (map (decode_row event_dtype) sample_records))
           "magnitude >= 4.0" "magnitude" ">=" "4.0" op_ge be_f8 7%nat 4%float
           "rupture_id < 3" "rupture_id" "<" "3" op_lt be_i4 0%nat 3%float
           lookup_sample_world_0 eq_refl eq_refl eq_refl eq_refl eq_refl
           eq_refl eq_refl eq_refl eq_refl eq_refl eq_refl)).
Defined.

Lemma X4_filter_returns_self_witness :
  0%nat = 0%nat
  /\ exists o a p,
       lookup sample_world 0 = Some o
       /\ _catalog o = PArray a
       /\ snd (filter (BI := decimal_float) 0 "magnitude >= 4.0" sample_world)
          = kept 0 a p sample_world
       /\ (List.length (List.filter p (arr_rows a)) <= len a)%nat
       /\ (forall x, In x (List.filter p (arr_rows a)) -> In x (arr_rows a)).
Proof.
  exact (@X4_filter_only_removes_rows utc_micros decimal_float
           0%nat sample_world "magnitude >= 4.0" 0%nat
           (snd (filter (BI := decimal_float) 0 "magnitude >= 4.0"
                   sample_world))
           eq_refl).
Defined.

Lemma X5_missing_space_witness :
  filter (BI := decimal_float) 0 "magnitude >=4.0" sample_world
  = (Raise ValueError, sample_world).
Proof.
  apply (@X5_filter_needs_two_spaces utc_micros decimal_float).
  cbn. discriminate.
Defined.

(** The truncated file: one catalog is added, numbered 0. *)
Lemma X6_truncated_file_witness :
  exists new,
    heap (snd (drain (RM := fixed_remote sample_events) 5
                 (gen_created "ucerf3.bin" truncated_file default_kwargs)
                 empty_world))
    = [] ++ new
    /\ List.length new = 1%nat
    /\ forall k o, nth_error new k = Some o ->
                   is_loaded "ucerf3.bin" (Z.of_nat k) o.
Proof.
  exact (proj2 (proj2
           (@X6_load_catalogs_only_adds_numbered_catalogs
              utc_micros (fixed_remote sample_events)
              "ucerf3.bin" truncated_file default_kwargs 5%nat empty_world
              [0%nat] Exhausted gen_finished
              (snd (drain (RM := fixed_remote sample_events) 5
                      (gen_created "ucerf3.bin" truncated_file default_kwargs)
                      empty_world))
              eq_refl))).
Defined.

(** A count of -1 before the bytes of a catalog: nothing is yielded. *)
Lemma X7_negative_count_witness :
  drain (RM := fixed_remote sample_events) 3
    (gen_created "ucerf3.bin"
       (be_encode 4 (-1)
        ++ serialize_catalog (mk_raw_catalog (be_encode 2 1) sample_records))
       default_kwargs)
    empty_world
  = ([], Exhausted, gen_finished, empty_world).
Proof.
  destruct (drain (RM := fixed_remote sample_events) 3
              (gen_created "ucerf3.bin"
                 (be_encode 4 (-1)
                  ++ serialize_catalog
                       (mk_raw_catalog (be_encode 2 1) sample_records))
                 default_kwargs)
              empty_world) as [[[cs e] g'] w'] eqn:E.
  refine (proj2 (@X7_count_bounds_the_iteration
                   utc_micros (fixed_remote sample_events)
                   "ucerf3.bin" default_kwargs (-1)
                   (serialize_catalog
                      (mk_raw_catalog (be_encode 2 1) sample_records))
                   3%nat empty_world cs e g' w' _ E) _ _); lia.
Defined.

(** An empty file, and a file that ends after its first catalog although
    it announces two. *)
Lemma X8_missing_header_witness :
  next (RM := fixed_remote sample_events)
    (gen_created "ucerf3.bin" [] default_kwargs) empty_world
  = (Raised IndexError, gen_finished, empty_world)
  /\ next (RM := fixed_remote sample_events)
       (gen_suspended "ucerf3.bin" default_kwargs [] 1 2) sample_world
     = (Raised IndexError, gen_finished, sample_world).
Proof.
  split.
  - refine (proj1 (@X8_missing_header_raises_index_error
                     utc_micros (fixed_remote sample_events)
                     "ucerf3.bin" default_kwargs empty_world) [] _).
    cbn. lia.
  - refine (proj2 (@X8_missing_header_raises_index_error
                     utc_micros (fixed_remote sample_events)
                     "ucerf3.bin" default_kwargs sample_world) [] 1%Z 2%Z _ _).
    + cbn. lia.
    + lia.
Defined.

Lemma X9_load_sample_events_witness :
  load_catalog (RM := fixed_remote sample_events) 0 lazy_comcat_world
  = (Return 0%nat,
     mk_world
       (update_nth 0
          (set__catalog
             (PArray (mk_ndarray comcat_dtype (map row_of_event sample_events))))
          (heap lazy_comcat_world))
       (trace lazy_comcat_world
        ++ [call_load_catalog 0; call_search sample_query])).
Proof.
  exact (proj1 (@X9_comcat_load_catalog_queries_once
                  utc_micros (fixed_remote sample_events)
                  0%nat lazy_comcat_world lazy_comcat_instance sample_query
                  lookup_lazy_comcat_world_0 eq_refl eq_refl)
           sample_events eq_refl).
Defined.

Lemma X10_eager_ucerf3_witness :
  exists w',
    UCERF3Catalog_new (RM := fixed_remote sample_events) eager_kwargs
      empty_world
    = (Raise NotImplementedError, w')
    /\ trace w' = [] ++ [call_load_catalog 0]
    /\ loads (trace w') = 1%nat.
Proof.
  exact (@X10_eager_construction_without_loader
           utc_micros (fixed_remote sample_events)
           eager_kwargs empty_world eq_refl eq_refl
           UCERF3Catalog_new (or_intror (or_introl eq_refl))).
Defined.

Lemma X11_eager_csep_witness :
  exists w' o,
    CSEPCatalog_new eager_kwargs empty_world = (Return 0%nat, w')
    /\ trace w' = []
    /\ lookup w' 0 = Some o
    /\ _catalog o = PNone.
Proof.
  exact (@X11_csep_never_loads utc_micros eager_kwargs empty_world eq_refl).
Defined.

Lemma X12_eager_comcat_witness :
  exists w',
    ComcatCatalog_new (RM := fixed_remote sample_events) (eager sample_window)
      empty_world
    = (Return 0%nat, w')
    /\ trace w' = [] ++ [call_load_catalog 0; call_search sample_query]
    /\ lookup w' 0
       = Some (set__catalog
                 (PArray (mk_ndarray comcat_dtype
                            (map row_of_event sample_events)))
                 (base_attributes eager_kwargs
                    (comcat_attributes (eager sample_window)
                       1546300800000000%Z 1546473600000000%Z))).
Proof.
  exact (@X12_eager_comcat_construction
           utc_micros (fixed_remote sample_events)
           (eager sample_window) empty_world
           1546300800000000%Z 1546473600000000%Z sample_events
           eq_refl eq_refl eq_refl eq_refl eq_refl eq_refl).
Defined.

Lemma X13_deferred_comcat_witness :
  ComcatCatalog_new (RM := fixed_remote sample_events) sample_window
    empty_world
  = (Return 0%nat, mk_world [lazy_comcat_instance] [])
  /\ catalog_id lazy_comcat_instance = IdNone
  /\ query_of lazy_comcat_instance = Some sample_query.
Proof.
  exact (@X13_deferred_comcat_construction
           utc_micros (fixed_remote sample_events)
           sample_window empty_world
           1546300800000000%Z 1546473600000000%Z
           eq_refl eq_refl eq_refl eq_refl eq_refl).
Defined.

Lemma X14_magnitudes_ge_4_witness :
  fst ((r <- filter (BI := decimal_float) 0 "magnitude >= 4.0" ;;
        get_magnitudes r)%py sample_world)
  = Return [CFloat 4; CFloat 5.5].
Proof.
  exact (f_equal fst
           (proj1 (@X14_magnitudes_after_filter utc_micros decimal_float
                     0%nat sample_world _
                     (mk_ndarray event_dtype
                        (map (decode_row event_dtype) sample_records))
                     "magnitude >= 4.0" ">=" "4.0" op_ge be_f8 7%nat 4%float
                     lookup_sample_world_0 (or_intror eq_refl) eq_refl eq_refl
                     eq_refl eq_refl eq_refl eq_refl))).
Defined.

Lemma X15_sample_datetimes_witness :
  UCERF3Catalog_get_datetimes 0 sample_world
  = (Return [1000000; 2000000; 3000000]%Z, sample_world)
  /\ List.length [1000; 2000; 3000]%Z = 3%nat.
Proof.
  exact (@X15_datetimes_follow_origin_times utc_micros
           0%nat sample_world _
           (mk_ndarray event_dtype (map (decode_row event_dtype) sample_records))
           be_i8 [1000; 2000; 3000]%Z
           lookup_sample_world_0 eq_refl eq_refl).
Defined.

Lemma X16_comcat_magnitudes_witness :
  exists w',
    (r <- load_catalog (RM := fixed_remote sample_events) 0 ;;
     get_magnitudes r)%py lazy_comcat_world
    = (Return [CFloat32 3; CFloat32 4.5], w').
Proof.
  exact (@X16_comcat_magnitudes_after_load
           utc_micros (fixed_remote sample_events)
           0%nat lazy_comcat_world lazy_comcat_instance sample_query
           sample_events
           lookup_lazy_comcat_world_0 eq_refl eq_refl eq_refl).
Defined.

Lemma X17_comcat_dataframe_witness :
  exists w',
    (r <- load_catalog (RM := fixed_remote sample_events) 0 ;;
     ComcatCatalog_get_dataframe r)%py lazy_comcat_world
    = (Raise AttributeError, w').
Proof.
  exact (@X17_comcat_dataframe_fails_after_load
           utc_micros (fixed_remote sample_events)
           0%nat lazy_comcat_world lazy_comcat_instance sample_query
           (@mk_event utc_micros "ci1" 1546300800000000%Z 34.5 (-118.25) 7.5 3.0)
           [@mk_event utc_micros "ci2" 1546387200000000%Z 36.0 (-120.5) 10.0 4.5]
           lookup_lazy_comcat_world_0 eq_refl eq_refl eq_refl).
Defined.

